(** * Insper Code Blockchain News API: authentication and article queries

    A shallow embedding of [auth.py], [main.py], [models.py] and the parts of
    [database.py] they rely on.  Python [str] values are sequences of Unicode
    code points; integers are unbounded ([Z]); the article and user tables are
    lists of rows in storage order; handlers that can raise return a [result].

    The collaborators that are not part of the repository are taken as
    follows.
    - [json.dumps] / [json.loads] (CPython, [ensure_ascii=True], default
      separators) are modelled on lists of strings, the only values the
      handlers pass through them.
    - The storage engine is SQLite (database.py, [DATABASE_URL]); SQLAlchemy
      renders [col.contains(s)] as [col LIKE '%' || s || '%'] and
      [offset]/[limit] as [LIMIT ? OFFSET ?].  SQLite's LIKE reads its pattern
      and its text as C strings, up to the first NUL, and refuses a pattern
      of more than 50000 bytes.
    - passlib's bcrypt handler and python-jose are interfaces whose
      cryptographic cores are parameters. *)

From Stdlib Require Import List NArith ZArith String Ascii Bool Lia.
Import ListNotations.

Open Scope N_scope.

(** ** Python strings *)

Module PyStr.

(** A Python [str]: its code points, each below [0x110000]. *)
Definition str := list N.

(** An ASCII literal of the source as a [str]. *)
Definition py (s : string) : str := map N_of_ascii (list_ascii_of_string s).

Fixpoint eqb (a b : str) : bool :=
  match a, b with
  | [], [] => true
  | x :: a', y :: b' => N.eqb x y && eqb a' b'
  | _, _ => false
  end.

(** Truthiness of a [str]: [if s:] holds for the non-empty strings. *)
Definition truthy (s : str) : bool :=
  match s with [] => false | _ :: _ => true end.

(** [str.isspace] on one code point, the separator set of [str.split()]. *)
Definition isspace (c : N) : bool :=
  ((9 <=? c) && (c <=? 13)) || ((28 <=? c) && (c <=? 32))
  || (c =? 133) || (c =? 160) || (c =? 5760)
  || ((8192 <=? c) && (c <=? 8202))
  || (c =? 8232) || (c =? 8233) || (c =? 8239) || (c =? 8287)
  || (c =? 12288).

(** [s.split()]: the maximal runs of non-whitespace code points, in order.
    [cur] is the run being read, reversed. *)
Fixpoint split_from (cur : option str) (s : str) : list str :=
  match s with
  | [] => match cur with Some w => [rev w] | None => [] end
  | c :: r =>
      if isspace c then
        match cur with
        | Some w => rev w :: split_from None r
        | None => split_from None r
        end
      else
        split_from (Some (c :: match cur with Some w => w | None => [] end)) r
  end.

Definition split (s : str) : list str := split_from None s.

Definition digit_char (d : N) : N := 48 + d.

Fixpoint uint_digits (u : Decimal.uint) : str :=
  match u with
  | Decimal.Nil => []
  | Decimal.D0 u' => digit_char 0 :: uint_digits u'
  | Decimal.D1 u' => digit_char 1 :: uint_digits u'
  | Decimal.D2 u' => digit_char 2 :: uint_digits u'
  | Decimal.D3 u' => digit_char 3 :: uint_digits u'
  | Decimal.D4 u' => digit_char 4 :: uint_digits u'
  | Decimal.D5 u' => digit_char 5 :: uint_digits u'
  | Decimal.D6 u' => digit_char 6 :: uint_digits u'
  | Decimal.D7 u' => digit_char 7 :: uint_digits u'
  | Decimal.D8 u' => digit_char 8 :: uint_digits u'
  | Decimal.D9 u' => digit_char 9 :: uint_digits u'
  end.

(** [str(n)] for a non-negative integer. *)
Definition str_of_N (n : N) : str := uint_digits (N.to_uint n).

(** Unicode scalar values: code points that are not surrogates. *)
Definition scalar (c : N) : Prop := c < 55296 \/ (57344 <= c /\ c < 1114112).

Definition scalarb (c : N) : bool :=
  (c <? 55296) || ((57344 <=? c) && (c <? 1114112)).

(** Text: a string of scalar values (what UTF-8 can carry). *)
Definition text (s : str) : Prop := Forall scalar s.

Definition textb (s : str) : bool := forallb scalarb s.

End PyStr.

Import PyStr.

(** ** The [json] module on lists of strings *)

Module Json.

Definition hexdigit (d : N) : N := if d <? 10 then 48 + d else 87 + d.

(** ['{0:04x}'.format(n)] for [n < 0x10000]. *)
Definition hex4 (n : N) : str :=
  [hexdigit (n / 4096); hexdigit ((n / 256) mod 16);
   hexdigit ((n / 16) mod 16); hexdigit (n mod 16)].

Definition backslash_u (n : N) : str := 92 :: 117 :: hex4 n.

(** [replace] of [py_encode_basestring_ascii]: the text written for one code
    point.  The short escapes of [ESCAPE_DCT] come first, printable ASCII is
    kept, everything else becomes [\uXXXX], a surrogate pair above the BMP. *)
Definition escape_char (c : N) : str :=
  if c =? 34 then [92; 34]
  else if c =? 92 then [92; 92]
  else if c =? 8 then [92; 98]
  else if c =? 12 then [92; 102]
  else if c =? 10 then [92; 110]
  else if c =? 13 then [92; 114]
  else if c =? 9 then [92; 116]
  else if (32 <=? c) && (c <=? 126) then [c]
  else if c <? 65536 then backslash_u c
  else
    let n := c - 65536 in
    let s1 := N.lor 55296 (N.land (N.shiftr n 10) 1023) in
    let s2 := N.lor 56320 (N.land n 1023) in
    backslash_u s1 ++ backslash_u s2.

Definition escape (s : str) : str := flat_map escape_char s.

(** [encode_basestring_ascii(s)]. *)
Definition encode_str (s : str) : str := 34 :: escape s ++ [34].

(** The items of a list, joined by the item separator [", "]. *)
Fixpoint encode_items (l : list str) : str :=
  match l with
  | [] => []
  | [s] => encode_str s
  | s :: l' => encode_str s ++ 44 :: 32 :: encode_items l'
  end.

(** [json.dumps(tags)] for a list of strings. *)
Definition dumps (tags : list str) : str := 91 :: encode_items tags ++ [93].

Definition hexval (c : N) : option N :=
  if (48 <=? c) && (c <=? 57) then Some (c - 48)
  else if (97 <=? c) && (c <=? 102) then Some (c - 87)
  else if (65 <=? c) && (c <=? 70) then Some (c - 55)
  else None.

(** The four hex digits after [\u]. *)
Definition decode_hex4 (a b c d : N) : option N :=
  match hexval a, hexval b, hexval c, hexval d with
  | Some x, Some y, Some z, Some w => Some (x * 4096 + y * 256 + z * 16 + w)
  | _, _, _, _ => None
  end.

Definition is_high_surrogate (c : N) : bool := (55296 <=? c) && (c <=? 56319).
Definition is_low_surrogate (c : N) : bool := (56320 <=? c) && (c <=? 57343).

Definition join_surrogates (hi lo : N) : N :=
  65536 + N.lor (N.shiftl (hi - 55296) 10) (lo - 56320).

(** The single-character escapes of [BACKSLASH]. *)
Definition simple_escape (e : N) : option N :=
  if e =? 34 then Some 34
  else if e =? 92 then Some 92
  else if e =? 47 then Some 47
  else if e =? 98 then Some 8
  else if e =? 102 then Some 12
  else if e =? 110 then Some 10
  else if e =? 114 then Some 13
  else if e =? 116 then Some 9
  else None.

(** [scanstring] in strict mode, started after the opening quote: the decoded
    string and the input left after the closing quote; [None] where the
    scanner raises [JSONDecodeError].  [acc] is the decoded prefix, reversed. *)
Fixpoint scanstring (s : str) (acc : str) : option (str * str) :=
  match s with
  | [] => None
  | c :: r =>
      if c =? 34 then Some (rev acc, r)
      else if c =? 92 then
        match r with
        | [] => None
        | e :: r1 =>
            if e =? 117 then
              match r1 with
              | h1 :: h2 :: h3 :: h4 :: r5 =>
                  match decode_hex4 h1 h2 h3 h4 with
                  | None => None
                  | Some uni =>
                      if is_high_surrogate uni then
                        match r5 with
                        | 92 :: 117 :: r7 =>
                            match r7 with
                            | g1 :: g2 :: g3 :: g4 :: r11 =>
                                match decode_hex4 g1 g2 g3 g4 with
                                | None => None
                                | Some uni2 =>
                                    if is_low_surrogate uni2
                                    then scanstring r11
                                           (join_surrogates uni uni2 :: acc)
                                    else scanstring r5 (uni :: acc)
                                end
                            | _ => None
                            end
                        | _ => scanstring r5 (uni :: acc)
                        end
                      else scanstring r5 (uni :: acc)
                  end
              | _ => None
              end
            else
              match simple_escape e with
              | Some d => scanstring r1 (d :: acc)
              | None => None
              end
        end
      else if c <? 32 then None
      else scanstring r (c :: acc)
  end.

Definition is_ws (c : N) : bool :=
  (c =? 32) || (c =? 9) || (c =? 10) || (c =? 13).

(** [WHITESPACE.match(s, idx).end()]. *)
Fixpoint skip_ws (s : str) : str :=
  match s with
  | c :: r => if is_ws c then skip_ws r else s
  | [] => []
  end.

(** The loop of [JSONArray], entered at the first element.  Every element has
    to be a string; [None] stands for [JSONDecodeError] and for elements of
    another JSON type.  Each round reads at least two characters, so the
    length of the input is fuel enough. *)
Fixpoint parse_elems (fuel : nat) (s : str) (acc : list str)
  : option (list str * str) :=
  match fuel with
  | O => None
  | S fuel' =>
      match s with
      | 34 :: r =>
          match scanstring r [] with
          | Some (v, r') =>
              match skip_ws r' with
              | 93 :: r'' => Some (rev (v :: acc), r'')
              | 44 :: r'' => parse_elems fuel' (skip_ws r'') (v :: acc)
              | _ => None
              end
          | None => None
          end
      | _ => None
      end
  end.

(** [JSONArray], started after the opening bracket. *)
Definition parse_array (s : str) : option (list str * str) :=
  match skip_ws s with
  | 93 :: r => Some ([], r)
  | s' => parse_elems (List.length s') s' []
  end.

(** [json.loads(s)] where the document is an array of strings: the decoded
    list; [None] where [json.loads] raises or yields another kind of value. *)
Definition loads (s : str) : option (list str) :=
  match skip_ws s with
  | 91 :: r =>
      match parse_array r with
      | Some (v, r') =>
          match skip_ws r' with
          | [] => Some v
          | _ :: _ => None
          end
      | None => None
      end
  | _ => None
  end.

End Json.

(** ** models.py *)

Module Models.

Inductive CategoryEnum :=
  market | technology | event | regulation | innovation | analysis.

(** The text of a member; the storage keeps it as a plain TEXT value. *)
Definition CategoryEnum_value (c : CategoryEnum) : str :=
  match c with
  | market => py "market"
  | technology => py "technology"
  | event => py "event"
  | regulation => py "regulation"
  | innovation => py "innovation"
  | analysis => py "analysis"
  end.

Inductive StatusEnum := published | draft.

Definition StatusEnum_value (s : StatusEnum) : str :=
  match s with
  | published => py "published"
  | draft => py "draft"
  end.

(** A [datetime] as seconds on the clock's scale. *)
Definition datetime := Z.

Record User := {
  user_id : str;
  user_name : str;
  user_email : str;
  password_hash : str;
  user_role : option str
}.

Record Article := {
  id : str;
  title : str;
  content : str;
  excerpt : str;
  category : CategoryEnum;
  author : str;
  published_at : datetime;
  read_time : str;
  image_url : option str;
  tags : str;  (* JSON string of tags array *)
  status : StatusEnum
}.

Record LoginCredentials := {
  cred_email : str;
  cred_password : str
}.

Record UserDict := {
  ud_id : str;
  ud_name : str;
  ud_email : str;
  ud_role : option str
}.

Record AuthResponse := {
  token : str;
  user : UserDict
}.

Record CreateArticleData := {
  c_title : str;
  c_content : str;
  c_excerpt : str;
  c_category : CategoryEnum;
  c_tags : list str;
  c_image_url : option str;
  c_status : option StatusEnum
}.

(** The value [status] takes when the request body has no such field. *)
Definition CreateArticleData_status_default : option StatusEnum :=
  Some published.

(** Every field defaults to [None]: a field the request leaves out and a field
    sent as [null] both arrive as [None]. *)
Record UpdateArticleData := {
  u_title : option str;
  u_content : option str;
  u_excerpt : option str;
  u_category : option CategoryEnum;
  u_tags : option (list str);
  u_image_url : option str;
  u_status : option StatusEnum
}.

(** The dictionary a handler answers for one article; [d_publishedAt] is the
    timestamp that [isoformat()] prints. *)
Record ArticleDict := {
  d_id : str;
  d_title : str;
  d_content : str;
  d_excerpt : str;
  d_category : CategoryEnum;
  d_author : str;
  d_publishedAt : datetime;
  d_readTime : str;
  d_imageUrl : option str;
  d_tags : list str;
  d_status : StatusEnum
}.

Record ArticlesResponse := {
  articles : list ArticleDict;
  total : Z;
  has_more : bool
}.

End Models.

Import Models.

(** ** Exceptions *)

Inductive exn :=
| HTTPException (status_code : Z) (detail : string)
                (headers : list (string * string))
| JSONDecodeError
| IntegrityError
| OverflowError
| OperationalError
| UnicodeEncodeError
| PasswordSizeError
| NullPasswordError
| UnknownHashError
| CryptBackendError.

Inductive result (A : Type) :=
| Ok (a : A)
| Raise (e : exn).

Arguments Ok {A} a.
Arguments Raise {A} e.

(** ** The storage engine *)

Module Sqlite.

(** ASCII upper case folded to lower case; other code points stay. *)
Definition lower (c : N) : N :=
  if (65 <=? c) && (c <=? 90) then c + 32 else c.

(** The character that [sqlite3Utf8Read] gives for a code point of valid
    UTF-8: the code point itself, except that U+FFFE and U+FFFF are read as
    U+FFFD. *)
Definition utf8_read (c : N) : N :=
  if (c =? 65534) || (c =? 65535) then 65533 else c.

(** How LIKE compares a pattern character with a text character, each as it
    is read from UTF-8: equal, or equal up to the case of ASCII letters. *)
Definition like_char (p c : N) : bool :=
  let p := utf8_read p in
  let c := utf8_read c in
  (p =? c) || ((p <? 128) && (c <? 128) && (lower p =? lower c)).

(** [patternCompare] for LIKE without ESCAPE clause, on a pattern and a text
    that hold no NUL: [%] (37) matches any run of characters, [_] (95) any
    one character. *)
Fixpoint patternCompare (p : str) : str -> bool :=
  match p with
  | [] => fun t => match t with [] => true | _ :: _ => false end
  | c :: p' =>
      if c =? 37 then
        fix star (t : str) : bool :=
          patternCompare p' t
          || match t with [] => false | _ :: t' => star t' end
      else
        fun t =>
          match t with
          | [] => false
          | d :: t' => ((c =? 95) || like_char c d) && patternCompare p' t'
          end
  end.

(** A text value as the C string that [sqlite3_value_text] hands to
    [patternCompare]: it ends at the first NUL. *)
Fixpoint c_string (s : str) : str :=
  match s with
  | [] => []
  | c :: r => if c =? 0 then [] else c :: c_string r
  end.

(** [text LIKE pattern] for a pattern that LIKE does not refuse: pattern and
    text are compared as C strings. *)
Definition like (p t : str) : bool :=
  patternCompare (c_string p) (c_string t).

(** The number of bytes of one code point in UTF-8. *)
Definition utf8_width (c : N) : N :=
  if c <? 128 then 1 else if c <? 2048 then 2 else if c <? 65536 then 3 else 4.

(** [sqlite3_value_bytes] of a text value: its length in UTF-8, NULs and
    what follows them included. *)
Definition value_bytes (s : str) : N :=
  fold_right (fun c n => utf8_width c + n) 0 s.

Definition SQLITE_MAX_LIKE_PATTERN_LENGTH : N := 50000.

(** [likeFunc] refuses a pattern of more than 50000 bytes, before it looks
    at the text: the statement fails with "LIKE or GLOB pattern too complex",
    which the driver raises as [OperationalError]. *)
Definition pattern_too_complex (p : str) : bool :=
  SQLITE_MAX_LIKE_PATTERN_LENGTH <? value_bytes p.

(** The pattern of [column.contains(other)]: ['%' || other || '%']. *)
Definition contains_pattern (other : str) : str := 37 :: other ++ [37].

(** [column.contains(other)]: [column LIKE '%' || other || '%'], for a
    pattern that LIKE does not refuse. *)
Definition contains (column other : str) : bool :=
  like (contains_pattern other) column.

(** An [int] can be bound as a parameter when it fits SQLite's 64-bit
    INTEGER; the driver raises [OverflowError] for any other. *)
Definition fits_integer (z : Z) : bool :=
  ((-9223372036854775808 <=? z) && (z <=? 9223372036854775807))%Z.

(** [LIMIT limit OFFSET offset] on the rows of a query: a negative OFFSET
    counts as zero, a negative LIMIT as no limit. *)
Definition offset_limit {A : Type} (offset limit : Z) (rows : list A)
  : list A :=
  let rest := skipn (Z.to_nat offset) rows in
  if (limit <? 0)%Z then rest else firstn (Z.to_nat limit) rest.

End Sqlite.

(** ** auth.py *)

Module Auth.

Definition SECRET_KEY : str := py "your-secret-key-here-change-in-production".
Definition ALGORITHM : str := py "HS256".
Definition ACCESS_TOKEN_EXPIRE_MINUTES : Z := 30.

(** A [timedelta], in seconds. *)
Definition timedelta := Z.
Definition timedelta_minutes (m : Z) : timedelta := (60 * m)%Z.

(** *** passlib's [CryptContext(schemes=["bcrypt"])] *)

(** [c.encode("utf-8")] for one code point; surrogates cannot be encoded. *)
Definition utf8_char (c : N) : option (list N) :=
  if c <? 128 then Some [c]
  else if c <? 2048 then Some [192 + c / 64; 128 + c mod 64]
  else if (55296 <=? c) && (c <=? 57343) then None
  else if c <? 65536 then
    Some [224 + c / 4096; 128 + (c / 64) mod 64; 128 + c mod 64]
  else if c <? 1114112 then
    Some [240 + c / 262144; 128 + (c / 4096) mod 64;
          128 + (c / 64) mod 64; 128 + c mod 64]
  else None.

Fixpoint utf8 (s : str) : option (list N) :=
  match s with
  | [] => Some []
  | c :: r =>
      match utf8_char c, utf8 r with
      | Some b, Some bs => Some (b ++ bs)
      | _, _ => None
      end
  end.

(** The identifier and cost that passlib's bcrypt handler writes. *)
Definition bcrypt_config : str := py "$2b$12$".

(** The checks of the handler on a password: [validate_secret] refuses a
    password of more than 4096 characters; then it is encoded as UTF-8, may
    be at most 4096 bytes long and may hold no NUL byte. *)
Definition norm_secret (password : str) : result (list N) :=
  if (4096 <? List.length password)%nat then Raise PasswordSizeError
  else
    match utf8 password with
    | None => Raise UnicodeEncodeError
    | Some secret =>
        if (4096 <? List.length secret)%nat then Raise PasswordSizeError
        else if existsb (N.eqb 0) secret then Raise NullPasswordError
        else Ok secret
    end.

(** A stored hash is [$2b$12$], 22 characters of salt and 31 of checksum:
    the form that [hash_password] writes, and the only one that reaches the
    user table ([create_default_user] is the one writer of [password_hash]).
    passlib also identifies bcrypt hashes of another identifier or cost;
    those are outside this embedding, which answers every other text as a
    hash that cannot be identified. *)
Definition parse_hash (hashed : str) : option (str * str) :=
  if PyStr.eqb (firstn 7 hashed) bcrypt_config
     && (List.length hashed =? 60)%nat
  then Some (firstn 22 (skipn 7 hashed), skipn 29 hashed)
  else None.

Section Passlib.

(** The bcrypt key schedule and encryption: from a key and a salt to the 31
    characters of checksum. *)
Variable bcrypt_digest : list N -> str -> str.

(** [bcrypt.hashpw]: bcrypt reads the first 72 bytes of the password. *)
Definition bcrypt_hashpw (secret : list N) (salt : str) : str :=
  bcrypt_digest (firstn 72 secret) salt.

Definition calc_checksum (secret : list N) (salt : str) : result str :=
  let chk := bcrypt_hashpw secret salt in
  if (List.length chk =? 31)%nat then Ok chk else Raise CryptBackendError.

(** [hash_password]; [salt] is the salt that [pwd_context.hash] draws. *)
Definition hash_password (salt : str) (password : str) : result str :=
  match norm_secret password with
  | Raise e => Raise e
  | Ok secret =>
      match calc_checksum secret salt with
      | Raise e => Raise e
      | Ok chk => Ok (bcrypt_config ++ salt ++ chk)
      end
  end.

Definition verify_password (plain_password hashed_password : str)
  : result bool :=
  match parse_hash hashed_password with
  | None => Raise UnknownHashError
  | Some (salt, chk) =>
      match norm_secret plain_password with
      | Raise e => Raise e
      | Ok secret =>
          match calc_checksum secret salt with
          | Raise e => Raise e
          | Ok chk' => Ok (PyStr.eqb chk' chk)
          end
      end
  end.

(** What [authenticate_user] returns: [False] or the user. *)
Inductive user_or_false :=
| ReturnFalse
| ReturnUser (u : User).

Definition authenticate_user (session : list User) (email password : str)
  : result user_or_false :=
  match find (fun u => PyStr.eqb (user_email u) email) session with
  | None => Ok ReturnFalse
  | Some user =>
      match verify_password password (password_hash user) with
      | Raise e => Raise e
      | Ok false => Ok ReturnFalse
      | Ok true => Ok (ReturnUser user)
      end
  end.

End Passlib.

(** *** python-jose *)

(** The claims the handlers read and write. *)
Record Payload := {
  sub : option str;
  exp : option datetime
}.

(** The errors of [jwt.decode]; the last two are subclasses of [JWTError]. *)
Inductive JoseError :=
| JWTError
| ExpiredSignatureError
| JWTClaimsError.

Inductive decoded :=
| Claims (payload : Payload)
| JoseRaises (e : JoseError).

Definition credentials_exception : exn :=
  HTTPException 401 "Could not validate credentials"
                [("WWW-Authenticate", "Bearer")]%string.

Section Jose.

(** [jwt.encode(claims, key, algorithm)]. *)
Variable jwt_encode : Payload -> str -> str -> str.

(** [jwt.decode(token, key, algorithms)] at the time of the call. *)
Variable jwt_decode : str -> str -> list str -> decoded.

Definition create_access_token (data : Payload)
  (expires_delta : option timedelta) (utcnow : datetime) : str :=
  let expire :=
    match expires_delta with
    | Some d => if (d =? 0)%Z then (utcnow + timedelta_minutes 15)%Z
                else (utcnow + d)%Z
    | None => (utcnow + timedelta_minutes 15)%Z
    end in
  let to_encode := {| sub := sub data; exp := Some expire |} in
  jwt_encode to_encode SECRET_KEY ALGORITHM.

Definition get_current_user (credentials : str) (session : list User)
  : result User :=
  match jwt_decode credentials SECRET_KEY [ALGORITHM] with
  | JoseRaises _ => Raise credentials_exception
  | Claims payload =>
      match sub payload with
      | None => Raise credentials_exception
      | Some uid =>
          match find (fun u => PyStr.eqb (user_id u) uid) session with
          | None => Raise credentials_exception
          | Some user => Ok user
          end
      end
  end.

End Jose.

End Auth.

(** ** main.py *)

Module Main.

Import Auth.

(** The answer of [login] to credentials it does not accept. *)
Definition incorrect_email_or_password : exn :=
  HTTPException 401 "Incorrect email or password" [].

Section Login.

Variable bcrypt_digest : list N -> str -> str.
Variable jwt_encode : Payload -> str -> str -> str.

Definition login (utcnow : datetime) (credentials : LoginCredentials)
  (session : list User) : result AuthResponse :=
  match authenticate_user bcrypt_digest session
          (cred_email credentials) (cred_password credentials) with
  | Raise e => Raise e
  | Ok ReturnFalse => Raise incorrect_email_or_password
  | Ok (ReturnUser user) =>
      let access_token_expires :=
        timedelta_minutes ACCESS_TOKEN_EXPIRE_MINUTES in
      let access_token :=
        create_access_token jwt_encode
          {| sub := Some (user_id user); exp := None |}
          (Some access_token_expires) utcnow in
      Ok {| token := access_token;
            user := {| ud_id := user_id user; ud_name := user_name user;
                       ud_email := user_email user;
                       ud_role := user_role user |} |}
  end.

End Login.

Definition get_me (current_user : User) : UserDict :=
  {| ud_id := user_id current_user;
     ud_name := user_name current_user;
     ud_email := user_email current_user;
     ud_role := user_role current_user |}.

(** The WHERE clause of a [select(Article)]. *)
Definition query := Article -> bool.

Definition select_Article : query := fun _ => true.

Definition where_ (q : query) (clause : Article -> bool) : query :=
  fun a => q a && clause a.

(** [session.exec(query).all()]. *)
Definition exec_all (q : query) (session : list Article) : list Article :=
  filter q session.

(** The query that [get_articles] builds from its filters. *)
Definition build_query (category status search : option str) : query :=
  let query := select_Article in
  let query :=
    match category with
    | Some c =>
        if truthy c
        then where_ query
               (fun a => PyStr.eqb (CategoryEnum_value (Models.category a)) c)
        else query
    | None => query
    end in
  let query :=
    match status with
    | Some s =>
        if truthy s
        then where_ query
               (fun a => PyStr.eqb (StatusEnum_value (Models.status a)) s)
        else query
    | None => query
    end in
  match search with
  | Some s =>
      if truthy s
      then where_ query
             (fun a => Sqlite.contains (title a) s
                       || Sqlite.contains (content a) s)
      else query
  | None => query
  end.

(** The dictionary built for one article; [json.loads] may raise. *)
Definition article_dict (article : Article) : result ArticleDict :=
  match Json.loads (tags article) with
  | None => Raise JSONDecodeError
  | Some tag_list =>
      Ok {| d_id := id article;
            d_title := title article;
            d_content := content article;
            d_excerpt := excerpt article;
            d_category := Models.category article;
            d_author := author article;
            d_publishedAt := published_at article;
            d_readTime := read_time article;
            d_imageUrl := image_url article;
            d_tags := tag_list;
            d_status := Models.status article |}
  end.

(** The loop over [articles] that fills [article_dicts]. *)
Fixpoint article_dicts (articles : list Article) : result (list ArticleDict) :=
  match articles with
  | [] => Ok []
  | article :: rest =>
      match article_dict article with
      | Raise e => Raise e
      | Ok d =>
          match article_dicts rest with
          | Raise e => Raise e
          | Ok ds => Ok (d :: ds)
          end
      end
  end.

(** Whether running the query of [get_articles] fails in LIKE.  The WHERE
    clause is [category = ? AND status = ? AND (title LIKE ? OR content LIKE
    ?)] with the terms that are present; on each row the storage evaluates
    the terms in order and leaves the row at the first that is false.  So
    LIKE is called on the rows that pass the category and status terms, and
    on the first such row it refuses a pattern that is too long: the
    statement fails.  With no such row LIKE is never called. *)
Definition search_raises (category status search : option str)
  (session : list Article) : bool :=
  match search with
  | Some s =>
      truthy s
      && Sqlite.pattern_too_complex (Sqlite.contains_pattern s)
      && existsb (build_query category status None) session
  | None => false
  end.

(** [get_articles].  The statement for [total] runs first and has no LIMIT:
    it is the one that fails in LIKE.  The statement for [articles] binds
    [limit] and [offset]. *)
Definition get_articles (category status search : option str)
  (limit offset : Z) (session : list Article) : result ArticlesResponse :=
  let query := build_query category status search in
  if search_raises category status search session
  then Raise OperationalError
  else
    let total := Z.of_nat (List.length (exec_all query session)) in
    if negb (Sqlite.fits_integer offset && Sqlite.fits_integer limit)
    then Raise OverflowError
    else
      let articles :=
        Sqlite.offset_limit offset limit (exec_all query session) in
      match article_dicts articles with
      | Raise e => Raise e
      | Ok dicts =>
          let has_more := ((offset + limit) <? total)%Z in
          Ok {| Models.articles := dicts; Models.total := total;
                Models.has_more := has_more |}
      end.

(** [f"{len(content.split()) // 200 + 1} min"]. *)
Definition read_time_minutes (content : str) : N :=
  N.of_nat (List.length (PyStr.split content)) / 200 + 1.

Definition read_time_label (content : str) : str :=
  str_of_N (read_time_minutes content) ++ py " min".

(** [session.add(article); session.commit()] for a new row: the primary key
    must not be taken. *)
Definition insert (article : Article) (session : list Article)
  : result (list Article) :=
  if existsb (fun a => PyStr.eqb (id a) (id article)) session
  then Raise IntegrityError
  else Ok (session ++ [article]).

(** [create_article]; [uuid4] is the text of the UUID drawn and [now] the
    clock read by the default of [published_at].  The storage after the call
    comes with the outcome. *)
Definition create_article (uuid4 : str) (now : datetime)
  (data : CreateArticleData) (session : list Article) (current_user : User)
  : list Article * result ArticleDict :=
  let article :=
    {| id := uuid4;
       title := c_title data;
       content := c_content data;
       excerpt := c_excerpt data;
       category := c_category data;
       author := user_name current_user;
       published_at := now;
       read_time := read_time_label (c_content data);
       image_url := c_image_url data;
       tags := Json.dumps (c_tags data);
       status := match c_status data with
                 | Some s => s
                 | None => published
                 end |} in
  match insert article session with
  | Raise e => (session, Raise e)
  | Ok session' => (session', article_dict article)
  end.

(** The assignments of [update_article], in the order of the source. *)
Definition apply_update (data : UpdateArticleData) (article : Article)
  : Article :=
  let article :=
    match u_title data with
    | Some t =>
        {| id := id article; title := t; content := content article;
           excerpt := excerpt article; category := category article;
           author := author article; published_at := published_at article;
           read_time := read_time article; image_url := image_url article;
           tags := tags article; status := status article |}
    | None => article
    end in
  let article :=
    match u_content data with
    | Some c =>
        {| id := id article; title := title article; content := c;
           excerpt := excerpt article; category := category article;
           author := author article; published_at := published_at article;
           read_time := read_time_label c; image_url := image_url article;
           tags := tags article; status := status article |}
    | None => article
    end in
  let article :=
    match u_excerpt data with
    | Some e =>
        {| id := id article; title := title article;
           content := content article; excerpt := e;
           category := category article; author := author article;
           published_at := published_at article;
           read_time := read_time article; image_url := image_url article;
           tags := tags article; status := status article |}
    | None => article
    end in
  let article :=
    match u_category data with
    | Some c =>
        {| id := id article; title := title article;
           content := content article; excerpt := excerpt article;
           category := c; author := author article;
           published_at := published_at article;
           read_time := read_time article; image_url := image_url article;
           tags := tags article; status := status article |}
    | None => article
    end in
  let article :=
    match u_tags data with
    | Some l =>
        {| id := id article; title := title article;
           content := content article; excerpt := excerpt article;
           category := category article; author := author article;
           published_at := published_at article;
           read_time := read_time article; image_url := image_url article;
           tags := Json.dumps l; status := status article |}
    | None => article
    end in
  let article :=
    match u_image_url data with
    | Some u =>
        {| id := id article; title := title article;
           content := content article; excerpt := excerpt article;
           category := category article; author := author article;
           published_at := published_at article;
           read_time := read_time article; image_url := Some u;
           tags := tags article; status := status article |}
    | None => article
    end in
  match u_status data with
  | Some s =>
      {| id := id article; title := title article;
         content := content article; excerpt := excerpt article;
         category := category article; author := author article;
         published_at := published_at article;
         read_time := read_time article; image_url := image_url article;
         tags := tags article; status := s |}
  | None => article
  end.

(** [session.add(article); session.commit()] for a row read from the table:
    the row with that primary key is rewritten in place. *)
Fixpoint store (article : Article) (session : list Article) : list Article :=
  match session with
  | [] => []
  | a :: rest =>
      if PyStr.eqb (id a) (id article) then article :: rest
      else a :: store article rest
  end.

Definition not_found : exn := HTTPException 404 "Article not found" [].

Definition update_article (article_id : str) (data : UpdateArticleData)
  (session : list Article) (current_user : User)
  : list Article * result ArticleDict :=
  match find (fun a => PyStr.eqb (id a) article_id) session with
  | None => (session, Raise not_found)
  | Some article =>
      let article := apply_update data article in
      (store article session, article_dict article)
  end.

Definition get_article (article_id : str) (session : list Article)
  : result ArticleDict :=
  match find (fun a => PyStr.eqb (id a) article_id) session with
  | None => Raise not_found
  | Some article => article_dict article
  end.

(** [session.delete(article); session.commit()]. *)
Fixpoint delete (article : Article) (session : list Article) : list Article :=
  match session with
  | [] => []
  | a :: rest =>
      if PyStr.eqb (id a) (id article) then rest
      else a :: delete article rest
  end.

Definition delete_article (article_id : str) (session : list Article)
  (current_user : User) : list Article * result string :=
  match find (fun a => PyStr.eqb (id a) article_id) session with
  | None => (session, Raise not_found)
  | Some article =>
      (delete article session, Ok "Article deleted successfully"%string)
  end.

End Main.

(** ** database.py: the rows written at start-up *)

Module Database.

Import Auth.

(** [create_default_user], on an empty user table; [uuid4] and [salt] are the
    random draws. *)
Definition default_user (uuid4 : str) (hashed : str) : User :=
  {| user_id := uuid4;
     user_name := py "Admin";
     user_email := py "admin@example.com";
     password_hash := hashed;
     user_role := Some (py "admin") |}.

(** The two articles of [create_sample_articles]. *)
Definition bitcoin_article (uuid4 : str) (now : datetime) : Article :=
  {| id := uuid4;
     title := py "Bitcoin atinge nova m" ++ [225] ++ py "xima hist"
              ++ [243] ++ py "rica";
     content := py "Bitcoin reached a new all-time high today...";
     excerpt := py "Cryptocurrency market shows strong momentum";
     category := market;
     author := py "Admin";
     published_at := now;
     read_time := py "5 min";
     image_url := None;
     tags := Json.dumps [py "bitcoin"; py "crypto"; py "market"];
     status := published |}.

Definition defi_article (uuid4 : str) (now : datetime) : Article :=
  {| id := uuid4;
     title := py "Nova regulamenta" ++ [231; 227] ++ py "o DeFi no Brasil";
     content := py "Brazilian government announces new DeFi regulations...";
     excerpt := py "New regulatory framework for decentralized finance";
     category := regulation;
     author := py "Admin";
     published_at := now;
     read_time := py "8 min";
     image_url := None;
     tags := Json.dumps [py "defi"; py "regulation"; py "brazil"];
     status := published |}.

(** [create_sample_articles], on an empty article table. *)
Definition sample_articles (uuid_a uuid_b : str) (now : datetime)
  : list Article :=
  [bitcoin_article uuid_a now; defi_article uuid_b now].

Section DefaultUser.

Variable bcrypt_digest : list N -> str -> str.

(** [create_default_user]: the admin is added unless a user already has the
    admin's email; [uuid4] and [salt] are the random draws.  The primary key
    must not be taken. *)
Definition create_default_user (uuid4 salt : str) (users : list User)
  : result (list User) :=
  match find (fun u => PyStr.eqb (user_email u) (py "admin@example.com"))
             users with
  | Some _ => Ok users
  | None =>
      match hash_password bcrypt_digest salt (py "admin123") with
      | Raise e => Raise e
      | Ok hashed =>
          if existsb (fun u => PyStr.eqb (user_id u) uuid4) users
          then Raise IntegrityError
          else Ok (users ++ [default_user uuid4 hashed])
      end
  end.

End DefaultUser.

(** [create_sample_articles]: the two articles are added when the table has
    no row at all; each reads the clock for its [published_at].  Both rows go
    in with one commit, which fails as a whole if the two ids are the same. *)
Definition create_sample_articles (uuid_a uuid_b : str)
  (now_a now_b : datetime) (articles : list Article)
  : result (list Article) :=
  match articles with
  | _ :: _ => Ok articles
  | [] =>
      if PyStr.eqb uuid_a uuid_b then Raise IntegrityError
      else Ok [bitcoin_article uuid_a now_a; defi_article uuid_b now_b]
  end.

End Database.

(** ** The specification's wording, for comparison with the code *)

Module Spec.

Import Auth.

(** The failure kinds of token verification. *)
Inductive TokenFailure := InvalidToken | ExpiredToken | UnknownSubject.

(** The kind the specification gives to a verification, from what decoding
    found and whether the subject is a user: [None] is success. *)
Definition token_failure (d : decoded) (session : list User)
  : option TokenFailure :=
  match d with
  | JoseRaises ExpiredSignatureError => Some ExpiredToken
  | JoseRaises _ => Some InvalidToken
  | Claims payload =>
      match sub payload with
      | None => Some InvalidToken
      | Some uid =>
          match find (fun u => PyStr.eqb (user_id u) uid) session with
          | None => Some UnknownSubject
          | Some _ => None
          end
      end
  end.

(** The kinds are surfaced as distinct failures: two tokens that fail for
    different kinds are answered differently. *)
Definition failures_distinct (jwt_decode : str -> str -> list str -> decoded)
  (session : list User) : Prop :=
  forall c1 c2 k1 k2,
    token_failure (jwt_decode c1 SECRET_KEY [ALGORITHM]) session = Some k1 ->
    token_failure (jwt_decode c2 SECRET_KEY [ALGORITHM]) session = Some k2 ->
    k1 <> k2 ->
    get_current_user jwt_decode c1 session
    <> get_current_user jwt_decode c2 session.

Fixpoint is_prefix (s t : str) : bool :=
  match s, t with
  | [], _ => true
  | c :: s', d :: t' => (c =? d) && is_prefix s' t'
  | _ :: _, [] => false
  end.

(** [s] occurs in [t] as a literal substring. *)
Fixpoint substring (s t : str) : bool :=
  is_prefix s t || match t with [] => false | _ :: t' => substring s t' end.

(** The filter predicate in the specification's words: every filter that is
    supplied is applied, the search as a literal substring test. *)
Definition selected (category status search : option str) (a : Article)
  : bool :=
  match category with
  | Some c => PyStr.eqb (CategoryEnum_value (Models.category a)) c
  | None => true
  end
  && match status with
     | Some s => PyStr.eqb (StatusEnum_value (Models.status a)) s
     | None => true
     end
  && match search with
     | Some s => substring s (title a) || substring s (content a)
     | None => true
     end.

(** A list call answers as the specification words it: the total counts
    the selected records and the items are the window over them. *)
Definition list_as_specified (category status search : option str)
  (limit offset : Z) (session : list Article) : Prop :=
  exists r,
    Main.get_articles category status search limit offset session = Ok r
    /\ total r
       = Z.of_nat
           (List.length (filter (selected category status search) session))
    /\ map d_id (articles r)
       = map id (Sqlite.offset_limit offset limit
                   (filter (selected category status search) session)).

(** The edge cases of the window in the specification's words. *)
Definition window_edges (category status search : option str)
  (limit offset : Z) (session : list Article) : Prop :=
  exists r,
    Main.get_articles category status search limit offset session = Ok r
    /\ ((limit <= 0)%Z ->
        articles r = []
        /\ total r
           = Z.of_nat
               (List.length
                  (Main.exec_all
                     (Main.build_query category status search) session)))
    /\ ((total r <= offset)%Z -> articles r = [] /\ has_more r = false).

(** Hashing and verifying in the specification's words, for one salt. *)
Definition hash_verify (bcrypt_digest : list N -> str -> str)
  (salt p p2 : str) : Prop :=
  exists h h2,
    hash_password bcrypt_digest salt p = Ok h
    /\ hash_password bcrypt_digest salt p2 = Ok h2
    /\ verify_password bcrypt_digest p h = Ok true
    /\ (p <> p2 -> verify_password bcrypt_digest p h2 = Ok false).

End Spec.

(** ** Concrete inputs *)

Module Samples.

Import Auth.

(** A stand-in for the bcrypt core: 31 characters read off the key and the
    salt.  Only its shape matters where it is used. *)
Definition sample_digest (key : list N) (salt : str) : str :=
  firstn 31 (key ++ salt ++ repeat 46 31).

Definition sample_salt : str := py "abcdefghijklmnopqrstuv".
Definition other_salt : str := py "ABCDEFGHIJKLMNOPQRSTUV".

Definition unwrap (r : result str) : str :=
  match r with Ok s => s | Raise _ => [] end.

Definition admin : User :=
  Database.default_user (py "3f2b8c1e-user")
    (unwrap (hash_password sample_digest sample_salt (py "admin123"))).

Definition users : list User := [admin].

(** A stand-in for [jwt.decode] at some instant: one token has expired, one
    has a bad signature, one carries no subject; any other token is taken as
    validly signed for the subject it spells. *)
Definition sample_jwt_decode (token key : str) (algorithms : list str)
  : decoded :=
  if PyStr.eqb token (py "expired") then JoseRaises ExpiredSignatureError
  else if PyStr.eqb token (py "tampered") then JoseRaises JWTError
  else if PyStr.eqb token (py "anonymous")
  then Claims {| sub := None; exp := None |}
  else Claims {| sub := Some token; exp := None |}.

Definition sample_jwt_encode (claims : Payload) (key algorithm : str) : str :=
  match sub claims with Some s => s | None => py "anonymous" end.

Definition articles2 : list Article :=
  Database.sample_articles (py "uuid-a") (py "uuid-b") 0%Z.

(** [n] published market articles with the ids ["1"] .. ["n"]. *)
Definition numbered (n : nat) : list Article :=
  map (fun i =>
         {| id := str_of_N (N.of_nat i);
            title := py "Article " ++ str_of_N (N.of_nat i);
            content := py "some words";
            excerpt := py "words";
            category := market;
            author := py "Admin";
            published_at := 0%Z;
            read_time := py "1 min";
            image_url := None;
            tags := Json.dumps [py "a"; py "b,c"];
            status := published |})
      (seq 1 n).

(** A search string with a NUL after its first letter, and one of 49999
    bytes. *)
Definition nul_search : str := [65; 0; 122; 122; 122].
Definition long_search : str := repeat 97 (N.to_nat 49999).

(** A password with a NUL, and one of 4097 bytes. *)
Definition nul_password : str := [97; 0; 98].
Definition long_password : str := repeat 97 4097.

(** Two passwords of 73 bytes that differ in the last byte only. *)
Definition long_x : str := repeat 97 72 ++ py "x".
Definition long_y : str := repeat 97 72 ++ py "y".

Definition only_content (c : str) : UpdateArticleData :=
  {| u_title := None; u_content := Some c; u_excerpt := None;
     u_category := None; u_tags := None; u_image_url := None;
     u_status := None |}.

Definition new_article_data : CreateArticleData :=
  {| c_title := py "Ethereum upgrade";
     c_content := py "The upgrade went live today";
     c_excerpt := py "Upgrade live";
     c_category := technology;
     c_tags := [py "a"; py "b,c"];
     c_image_url := None;
     c_status := None |}.

End Samples.

(** ** Properties the statements below are written with *)

Module Props.

(** The stored tags of an article can be read back by [json.loads]. *)
Definition decodable (a : Article) : bool :=
  match Json.loads (tags a) with Some _ => true | None => false end.

(** A filter takes part in the query when it is given and not empty. *)
Definition applies (filter : option str) (P : str -> Prop) : Prop :=
  forall s, filter = Some s -> s <> [] -> P s.

(** Neither of the LIKE wildcards occurs in [s]. *)
Definition wildcard_free (s : str) : Prop :=
  Forall (fun c => c <> 37 /\ c <> 95) s.

(** No NUL occurs in [s]. *)
Definition nul_free (s : str) : Prop := Forall (fun c => c <> 0) s.

(** [s] occurs in [t], character by character as LIKE compares them: up to
    the case of ASCII letters (and with U+FFFE and U+FFFF read as
    U+FFFD). *)
Definition occurs_nocase (s t : str) : Prop :=
  exists pre mid post,
    t = pre ++ mid ++ post
    /\ Forall2 (fun p c => Sqlite.like_char p c = true) s mid.

(** [t] ends with [s], character by character as LIKE compares them. *)
Definition ends_nocase (s t : str) : Prop :=
  exists pre mid,
    t = pre ++ mid
    /\ Forall2 (fun p c => Sqlite.like_char p c = true) s mid.

(** The search string is short enough for LIKE: with the two [%] around it
    the pattern has at most 50000 bytes. *)
Definition search_fits (search : option str) : Prop :=
  forall s, search = Some s ->
    Sqlite.value_bytes s + 2 <= Sqlite.SQLITE_MAX_LIKE_PATTERN_LENGTH.

(** What the query of [get_articles] asks of an article. *)
Definition selects (category status search : option str) (a : Article)
  : Prop :=
  applies category (fun c => CategoryEnum_value (Models.category a) = c)
  /\ applies status (fun s => StatusEnum_value (Models.status a) = s)
  /\ applies search
       (fun s => Sqlite.contains (title a) s = true
                 \/ Sqlite.contains (content a) s = true).

(** The value a field has after an update that may carry a new one. *)
Definition patched {A : Type} (sent : option A) (old : A) : A :=
  match sent with Some v => v | None => old end.

End Props.

(** ** Start-up *)

Module Startup.

(** The two tables. *)
Definition db := (list User * list Article)%type.

(** [on_startup]: the default user, then the sample articles; what was
    committed before an exception stays. *)
Definition on_startup (bcrypt_digest : list N -> str -> str)
  (uuid_user salt uuid_a uuid_b : str) (now_a now_b : datetime) (d : db)
  : db * result unit :=
  match Database.create_default_user bcrypt_digest uuid_user salt (fst d) with
  | Raise e => (d, Raise e)
  | Ok users =>
      match Database.create_sample_articles uuid_a uuid_b now_a now_b
              (snd d) with
      | Raise e => ((users, snd d), Raise e)
      | Ok articles => ((users, articles), Ok tt)
      end
  end.

End Startup.

(** ** Printable ASCII *)

Module Text.

(** A code point from the space to the tilde. *)
Definition printable (c : N) : Prop := 32 <= c /\ c <= 126.

End Text.

(** * Facts about the embedding *)

Import Auth Main Props Samples.

Lemma eqb_eq (a b : str) : PyStr.eqb a b = true <-> a = b.
Proof.
  revert b. induction a as [| x a IH]; intros [| y b]; cbn [PyStr.eqb];
    try (split; [discriminate | discriminate]); [tauto |].
  rewrite andb_true_iff, N.eqb_eq, IH. split.
  - intros [-> ->]. reflexivity.
  - intros E. inversion E. auto.
Qed.

Lemma eqb_refl (a : str) : PyStr.eqb a a = true.
Proof. apply eqb_eq. reflexivity. Qed.


Module JsonFacts.
Import Json.

Lemma lor_shiftl_low (a b k : N) :
  b < 2 ^ k -> N.lor (N.shiftl a k) b = a * 2 ^ k + b.
Proof.
  intros Hb.
  assert (Hland : N.land (N.shiftl a k) b = 0).
  { apply N.bits_inj. intros i. rewrite N.land_spec, N.bits_0.
    destruct (N.lt_ge_cases i k) as [Hi | Hi].
    - rewrite N.shiftl_spec_low by assumption. reflexivity.
    - replace (N.testbit b i) with false; [apply andb_false_r |].
      symmetry. destruct (N.eq_dec b 0) as [-> | Hnz]; [apply N.bits_0 |].
      apply N.bits_above_log2. apply N.lt_le_trans with k; [| assumption].
      apply N.log2_lt_pow2; lia. }
  rewrite <- N.lxor_lor by assumption.
  rewrite <- N.add_nocarry_lxor by assumption.
  rewrite N.shiftl_mul_pow2. reflexivity.
Qed.

Lemma high_surrogate_value (n : N) :
  n < 1048576 ->
  N.lor 55296 (N.land (N.shiftr n 10) 1023) = 55296 + n / 1024.
Proof.
  intros Hn.
  change 1023 with (N.ones 10). rewrite N.land_ones, N.shiftr_div_pow2.
  change (2 ^ 10) with 1024.
  assert (n / 1024 < 1024) by (apply N.Div0.div_lt_upper_bound; lia).
  rewrite N.mod_small by assumption.
  change 55296 with (N.shiftl 54 10) at 1.
  rewrite lor_shiftl_low by (change (2 ^ 10) with 1024; assumption).
  reflexivity.
Qed.

Lemma low_surrogate_value (n : N) :
  N.lor 56320 (N.land n 1023) = 56320 + n mod 1024.
Proof.
  change 1023 with (N.ones 10). rewrite N.land_ones.
  change (2 ^ 10) with 1024.
  assert (n mod 1024 < 1024) by (apply N.mod_lt; lia).
  change 56320 with (N.shiftl 55 10) at 1.
  rewrite lor_shiftl_low by (change (2 ^ 10) with 1024; assumption).
  reflexivity.
Qed.

Lemma join_surrogates_value (n : N) :
  n < 1048576 ->
  join_surrogates (55296 + n / 1024) (56320 + n mod 1024) = 65536 + n.
Proof.
  intros Hn. unfold join_surrogates.
  rewrite (N.add_comm 55296), N.add_sub, (N.add_comm 56320), N.add_sub.
  assert (n mod 1024 < 1024) by (apply N.mod_lt; lia).
  rewrite lor_shiftl_low by (change (2 ^ 10) with 1024; assumption).
  change (2 ^ 10) with 1024.
  pose proof (N.div_mod n 1024). lia.
Qed.

Lemma hexval_hexdigit (d : N) : d < 16 -> hexval (hexdigit d) = Some d.
Proof.
  intros Hd. unfold hexdigit, hexval.
  destruct (d <? 10) eqn:E.
  - apply N.ltb_lt in E.
    replace ((48 <=? 48 + d) && (48 + d <=? 57)) with true.
    + f_equal. lia.
    + symmetry. apply andb_true_iff. split; apply N.leb_le; lia.
  - apply N.ltb_ge in E.
    replace ((48 <=? 87 + d) && (87 + d <=? 57)) with false.
    + replace ((97 <=? 87 + d) && (87 + d <=? 102)) with true.
      * f_equal. lia.
      * symmetry. apply andb_true_iff. split; apply N.leb_le; lia.
    + symmetry. apply andb_false_iff. right. apply N.leb_gt. lia.
Qed.

Lemma decode_hex4_hex4 (n : N) :
  n < 65536 ->
  decode_hex4 (hexdigit (n / 4096)) (hexdigit ((n / 256) mod 16))
              (hexdigit ((n / 16) mod 16)) (hexdigit (n mod 16)) = Some n.
Proof.
  intros Hn. unfold decode_hex4.
  assert (n / 4096 < 16) by (apply N.Div0.div_lt_upper_bound; lia).
  rewrite !hexval_hexdigit by (assumption || (apply N.mod_lt; lia)).
  f_equal.
  assert (E1 : n / 256 = n / 16 / 16) by (rewrite N.Div0.div_div; reflexivity).
  assert (E2 : n / 4096 = n / 256 / 16) by (rewrite N.Div0.div_div; reflexivity).
  pose proof (N.div_mod n 16). pose proof (N.div_mod (n / 16) 16).
  pose proof (N.div_mod (n / 256) 16).
  rewrite <- E1, <- E2 in *. lia.
Qed.

Lemma scan_quote (r acc : str) : scanstring (34 :: r) acc = Some (rev acc, r).
Proof. reflexivity. Qed.

Lemma scan_simple (e d : N) (r acc : str) :
  (e =? 117) = false -> simple_escape e = Some d ->
  scanstring (92 :: e :: r) acc = scanstring r (d :: acc).
Proof.
  intros Hu He. cbn [scanstring]. change (92 =? 34) with false.
  change (92 =? 92) with true. cbv iota. rewrite Hu, He. reflexivity.
Qed.

Lemma scan_plain (c : N) (r acc : str) :
  (c =? 34) = false -> (c =? 92) = false -> (c <? 32) = false ->
  scanstring (c :: r) acc = scanstring r (c :: acc).
Proof.
  intros H1 H2 H3. cbn [scanstring]. rewrite H1, H2, H3. reflexivity.
Qed.

Lemma scan_backslash_u (n : N) (r acc : str) :
  n < 65536 -> is_high_surrogate n = false ->
  scanstring (backslash_u n ++ r) acc = scanstring r (n :: acc).
Proof.
  intros Hn Hs. unfold backslash_u, hex4. cbn [app scanstring].
  change (92 =? 34) with false. change (92 =? 92) with true.
  change (117 =? 117) with true. cbv iota.
  rewrite decode_hex4_hex4 by assumption. rewrite Hs. reflexivity.
Qed.

Lemma scan_surrogate_pair (hi lo : N) (r acc : str) :
  hi < 65536 -> lo < 65536 ->
  is_high_surrogate hi = true -> is_low_surrogate lo = true ->
  scanstring (backslash_u hi ++ backslash_u lo ++ r) acc
  = scanstring r (join_surrogates hi lo :: acc).
Proof.
  intros Hhi Hlo Hh Hl. unfold backslash_u, hex4. cbn [app scanstring].
  change (92 =? 34) with false. change (92 =? 92) with true.
  change (117 =? 117) with true. cbv iota.
  rewrite !decode_hex4_hex4 by assumption. rewrite Hh, Hl. reflexivity.
Qed.

Lemma scan_escape_char (c : N) (r acc : str) :
  scalar c ->
  scanstring (escape_char c ++ r) acc = scanstring r (c :: acc).
Proof.
  intros Hc. unfold escape_char.
  destruct (c =? 34) eqn:E34; [apply N.eqb_eq in E34; subst; reflexivity |].
  destruct (c =? 92) eqn:E92; [apply N.eqb_eq in E92; subst; reflexivity |].
  destruct (c =? 8) eqn:E8; [apply N.eqb_eq in E8; subst; reflexivity |].
  destruct (c =? 12) eqn:E12; [apply N.eqb_eq in E12; subst; reflexivity |].
  destruct (c =? 10) eqn:E10; [apply N.eqb_eq in E10; subst; reflexivity |].
  destruct (c =? 13) eqn:E13; [apply N.eqb_eq in E13; subst; reflexivity |].
  destruct (c =? 9) eqn:E9; [apply N.eqb_eq in E9; subst; reflexivity |].
  destruct ((32 <=? c) && (c <=? 126)) eqn:Eprint.
  - apply andb_true_iff in Eprint. destruct Eprint as [Hlo _].
    apply N.leb_le in Hlo. cbn [app].
    apply scan_plain; try assumption. apply N.ltb_ge. assumption.
  - destruct (c <? 65536) eqn:Ebmp.
    + apply N.ltb_lt in Ebmp. apply scan_backslash_u; [assumption |].
      unfold is_high_surrogate. apply andb_false_iff.
      destruct Hc as [Hc | [Hc _]];
        [left; apply N.leb_gt | right; apply N.leb_gt]; lia.
    + apply N.ltb_ge in Ebmp. cbv zeta.
      destruct Hc as [Hc | [_ Hc]]; [lia |].
      assert (Hn : c - 65536 < 1048576) by lia.
      rewrite high_surrogate_value, low_surrogate_value by assumption.
      assert ((c - 65536) / 1024 < 1024)
        by (apply N.Div0.div_lt_upper_bound; lia).
      assert ((c - 65536) mod 1024 < 1024) by (apply N.mod_lt; lia).
      rewrite <- app_assoc.
      rewrite scan_surrogate_pair.
      * rewrite join_surrogates_value by assumption.
        replace (65536 + (c - 65536)) with c by lia. reflexivity.
      * set (q := (c - 65536) / 1024) in *. lia.
      * set (m := (c - 65536) mod 1024) in *. lia.
      * set (q := (c - 65536) / 1024) in *.
        unfold is_high_surrogate. apply andb_true_iff.
        split; apply N.leb_le; lia.
      * set (m := (c - 65536) mod 1024) in *.
        unfold is_low_surrogate. apply andb_true_iff.
        split; apply N.leb_le; lia.
Qed.

Lemma scan_escape (s : str) : forall (r acc : str),
  text s ->
  scanstring (escape s ++ 34 :: r) acc = Some (rev acc ++ s, r).
Proof.
  induction s as [| c s IH]; intros r acc Hs.
  - cbn [escape flat_map app]. rewrite scan_quote, app_nil_r. reflexivity.
  - inversion Hs as [| ? ? Hc Hs']; subst.
    unfold escape in *. cbn [flat_map]. rewrite <- app_assoc.
    rewrite scan_escape_char by assumption.
    rewrite IH by assumption. cbn [rev]. rewrite <- app_assoc. reflexivity.
Qed.

Lemma encode_items_cons (t : str) (l : list str) :
  encode_items (t :: l)
  = 34 :: escape t ++ 34 :: match l with
                            | [] => []
                            | _ :: _ => 44 :: 32 :: encode_items l
                            end.
Proof.
  destruct l; cbn [encode_items]; unfold encode_str; cbn [app];
    rewrite <- ?app_assoc; reflexivity.
Qed.

Lemma encode_items_length (l : list str) :
  (List.length l <= List.length (encode_items l))%nat.
Proof.
  induction l as [| t l IH]; [apply Nat.le_refl |].
  rewrite encode_items_cons. cbn [List.length]. rewrite length_app.
  destruct l; cbn [List.length] in *; lia.
Qed.

Lemma parse_elems_string (fuel : nat) (r : str) (acc : list str) :
  parse_elems (S fuel) (34 :: r) acc
  = match scanstring r [] with
    | Some (v, r') =>
        match skip_ws r' with
        | 93 :: r'' => Some (rev (v :: acc), r'')
        | 44 :: r'' => parse_elems fuel (skip_ws r'') (v :: acc)
        | _ => None
        end
    | None => None
    end.
Proof. reflexivity. Qed.

Lemma parse_elems_items (l : list str) :
  forall (t : str) (acc : list str) (r : str) (fuel : nat),
  Forall text (t :: l) ->
  (List.length (t :: l) <= fuel)%nat ->
  parse_elems fuel (encode_items (t :: l) ++ 93 :: r) acc
  = Some (rev acc ++ t :: l, r).
Proof.
  induction l as [| t' l IH]; intros t acc r fuel Ht Hfuel;
    inversion Ht as [| ? ? Htext Hrest]; subst;
    (destruct fuel as [| fuel]; [cbn [List.length] in Hfuel; lia |]);
    rewrite encode_items_cons; cbn [app]; rewrite <- app_assoc;
    rewrite parse_elems_string; cbn [app];
    rewrite scan_escape by assumption; cbn [rev app].
  - reflexivity.
  - change (skip_ws (44 :: 32 :: encode_items (t' :: l) ++ 93 :: r))
      with (44 :: 32 :: encode_items (t' :: l) ++ 93 :: r).
    cbv iota.
    replace (skip_ws (32 :: encode_items (t' :: l) ++ 93 :: r))
      with (encode_items (t' :: l) ++ 93 :: r)
      by (rewrite encode_items_cons; reflexivity).
    rewrite IH; [| assumption | cbn [List.length] in *; lia].
    cbn [rev]. rewrite <- app_assoc. reflexivity.
Qed.

Lemma loads_dumps (l : list str) :
  Forall text l -> loads (dumps l) = Some l.
Proof.
  intros Hl. unfold dumps, loads.
  change (skip_ws (91 :: encode_items l ++ [93]))
    with (91 :: encode_items l ++ [93]).
  cbv iota. destruct l as [| t l]; [reflexivity |].
  unfold parse_array.
  replace (skip_ws (encode_items (t :: l) ++ [93]))
    with (encode_items (t :: l) ++ [93])
    by (rewrite encode_items_cons; reflexivity).
  assert (Hparse :
    parse_elems (List.length (encode_items (t :: l) ++ [93]))
                (encode_items (t :: l) ++ [93]) []
    = Some (t :: l, [])).
  { apply (parse_elems_items l t [] []); [assumption |].
    rewrite length_app. pose proof (encode_items_length (t :: l)). lia. }
  revert Hparse. rewrite encode_items_cons. cbn [app].
  intros Hparse. rewrite Hparse. reflexivity.
Qed.
End JsonFacts.

Module SqliteFacts.
Import Sqlite Props.

Lemma like_percent_step (p t : str) :
  patternCompare (37 :: p) t
  = patternCompare p t
    || match t with [] => false | _ :: t' => patternCompare (37 :: p) t' end.
Proof. destruct t; reflexivity. Qed.

Lemma like_char_step (c : N) (p t : str) :
  c <> 37 ->
  patternCompare (c :: p) t
  = match t with
    | [] => false
    | d :: t' => ((c =? 95) || like_char c d) && patternCompare p t'
    end.
Proof.
  intros Hc. cbn [patternCompare]. apply N.eqb_neq in Hc. rewrite Hc.
  reflexivity.
Qed.

(** A leading [%] lets the rest of the pattern start anywhere. *)
Lemma like_percent (p t : str) :
  patternCompare (37 :: p) t = true
  <-> exists pre post, t = pre ++ post /\ patternCompare p post = true.
Proof.
  induction t as [| d t IH]; rewrite like_percent_step, orb_true_iff.
  - split.
    + intros [H | H]; [exists [], []; auto | discriminate].
    + intros [pre [post [E H]]]. symmetry in E.
      apply app_eq_nil in E. destruct E; subst. auto.
  - rewrite IH. split.
    + intros [H | [pre [post [E H]]]].
      * exists [], (d :: t). auto.
      * exists (d :: pre), post. subst. auto.
    + intros [[| x pre] [post [E H]]]; cbn [app] in E.
      * subst. auto.
      * inversion E; subst. right. exists pre, post. auto.
Qed.

(** A pattern without wildcards matches the text character by character. *)
Lemma like_literal (s : str) : forall t,
  wildcard_free s ->
  (patternCompare s t = true
   <-> Forall2 (fun p c => like_char p c = true) s t).
Proof.
  induction s as [| c s IH]; intros t Hs.
  - destruct t; cbn [patternCompare]; split; intros H;
      first [constructor | discriminate | inversion H].
  - inversion Hs as [| ? ? [Hc37 Hc95] Hs']; subst.
    rewrite like_char_step by assumption.
    apply N.eqb_neq in Hc95. rewrite Hc95. cbn [orb].
    destruct t as [| d t].
    + split; [discriminate | intros F; inversion F].
    + rewrite andb_true_iff, IH by assumption. split.
      * intros [Hd F]. constructor; assumption.
      * intros F. inversion F; subst. auto.
Qed.

(** A pattern without wildcards, closed by [%], matches a prefix character
    by character. *)
Lemma like_literal_prefix (s : str) : forall t,
  wildcard_free s ->
  (patternCompare (s ++ [37]) t = true
   <-> exists mid post,
         t = mid ++ post /\ Forall2 (fun p c => like_char p c = true) s mid).
Proof.
  induction s as [| c s IH]; intros t Hs.
  - cbn [app]. rewrite like_percent. split.
    + intros _. exists [], t. auto.
    + intros _. exists t, []. rewrite app_nil_r. destruct t; auto.
  - inversion Hs as [| ? ? [Hc37 Hc95] Hs']; subst.
    cbn [app]. rewrite like_char_step by assumption.
    apply N.eqb_neq in Hc95. rewrite Hc95. cbn [orb].
    destruct t as [| d t].
    + split; [discriminate |].
      intros [mid [post [E F]]]. inversion F; subst. discriminate.
    + rewrite andb_true_iff, IH by assumption. split.
      * intros [Hd [mid [post [E F]]]]. exists (d :: mid), post.
        subst. auto.
      * intros [mid [post [E F]]]. inversion F as [| ? y ? mid' Hy F']; subst.
        cbn [app] in E. inversion E; subst.
        split; [assumption |]. exists mid', post. auto.
Qed.

(** The C string of a text: all of it when it holds no NUL, and nothing of
    what follows a NUL. *)
Lemma c_string_app_nul_free (s r : str) :
  nul_free s -> c_string (s ++ r) = s ++ c_string r.
Proof.
  induction 1 as [| c s Hc _ IH]; [reflexivity |].
  cbn [app c_string]. apply N.eqb_neq in Hc. rewrite Hc, IH. reflexivity.
Qed.

Lemma c_string_nul_free (s : str) : nul_free s -> c_string s = s.
Proof.
  intros H. rewrite <- (app_nil_r s) at 1.
  rewrite c_string_app_nul_free by assumption. apply app_nil_r.
Qed.

Lemma c_string_app_nul (s r : str) :
  In 0 s -> c_string (s ++ r) = c_string s.
Proof.
  induction s as [| c s IH]; [intros [] |].
  intros Hin. cbn [app c_string]. destruct (c =? 0) eqn:E; [reflexivity |].
  f_equal. apply IH. destruct Hin as [-> | Hin]; [discriminate | exact Hin].
Qed.

Lemma c_string_cut (s : str) :
  nul_free (c_string s)
  /\ exists rest, s = c_string s ++ rest /\ (In 0 s -> hd 1 rest = 0).
Proof.
  induction s as [| c s [IHn [rest [IHe IHr]]]].
  - split; [constructor |]. exists []. split; [reflexivity | intros []].
  - cbn [c_string]. destruct (c =? 0) eqn:E.
    + apply N.eqb_eq in E. subst c. split; [constructor |].
      exists (0 :: s). split; reflexivity.
    + apply N.eqb_neq in E. split; [constructor; assumption |].
      exists rest. cbn [app]. split; [congruence |].
      intros [Hc | Hin]; [congruence | auto].
Qed.

Lemma c_string_wildcard_free (s : str) :
  wildcard_free s -> wildcard_free (c_string s).
Proof.
  induction 1 as [| c s Hc _ IH]; [constructor |].
  cbn [c_string]. destruct (c =? 0); constructor; assumption.
Qed.

(** Without wildcards and without NUL in the search string, [contains] is
    containment up to the case of ASCII letters, in the column as far as its
    first NUL. *)
Lemma contains_wildcard_free (column other : str) :
  wildcard_free other -> nul_free other ->
  (contains column other = true <-> occurs_nocase other (c_string column)).
Proof.
  intros Hs Hn. unfold contains, contains_pattern, like, occurs_nocase.
  cbn [c_string N.eqb]. rewrite c_string_app_nul_free by assumption.
  cbn [c_string N.eqb]. rewrite like_percent. split.
  - intros [pre [post [E H]]].
    apply like_literal_prefix in H; [| assumption].
    destruct H as [mid [post' [E' F]]]. exists pre, mid, post'. subst. auto.
  - intros [pre [mid [post [E F]]]]. exists pre, (mid ++ post).
    split; [assumption |]. apply like_literal_prefix; [assumption |].
    exists mid, post. auto.
Qed.

(** A NUL in the search string ends the pattern, closing [%] included: what
    stands before the NUL must then end the column. *)
Lemma contains_nul (column other : str) :
  wildcard_free (c_string other) -> In 0 other ->
  (contains column other = true
   <-> ends_nocase (c_string other) (c_string column)).
Proof.
  intros Hs Hn. unfold contains, contains_pattern, like, ends_nocase.
  cbn [c_string N.eqb]. rewrite c_string_app_nul by assumption.
  rewrite like_percent. split.
  - intros [pre [post [E H]]]. exists pre, post. split; [assumption |].
    apply like_literal; assumption.
  - intros [pre [mid [E F]]]. exists pre, mid. split; [assumption |].
    apply like_literal; assumption.
Qed.

Lemma value_bytes_app (s r : str) :
  value_bytes (s ++ r) = value_bytes s + value_bytes r.
Proof.
  induction s as [| c s IH]; cbn [app value_bytes fold_right];
    [reflexivity |].
  fold (value_bytes (s ++ r)). fold (value_bytes s). rewrite IH. lia.
Qed.

Lemma value_bytes_contains_pattern (s : str) :
  value_bytes (contains_pattern s) = value_bytes s + 2.
Proof.
  unfold contains_pattern. change (37 :: s ++ [37]) with ([37] ++ s ++ [37]).
  rewrite !value_bytes_app. change (value_bytes [37]) with 1. lia.
Qed.

(** LIKE refuses the pattern of [contains] exactly for a search string of
    49999 bytes or more. *)
Lemma pattern_too_complex_contains (s : str) :
  pattern_too_complex (contains_pattern s) = true <-> 49999 <= value_bytes s.
Proof.
  unfold pattern_too_complex, SQLITE_MAX_LIKE_PATTERN_LENGTH.
  rewrite value_bytes_contains_pattern, N.ltb_lt. lia.
Qed.

Lemma value_bytes_ascii (s : str) :
  Forall (fun c => c < 128) s -> value_bytes s = N.of_nat (List.length s).
Proof.
  induction 1 as [| c s Hc _ IH]; [reflexivity |].
  cbn [value_bytes fold_right List.length]. fold (value_bytes s).
  rewrite IH. unfold utf8_width. apply N.ltb_lt in Hc. rewrite Hc. lia.
Qed.

Lemma offset_limit_zero {A : Type} (offset : Z) (rows : list A) :
  offset_limit offset 0 rows = [].
Proof. reflexivity. Qed.

Lemma offset_limit_beyond {A : Type} (offset limit : Z) (rows : list A) :
  (Z.of_nat (List.length rows) <= offset)%Z ->
  offset_limit offset limit rows = [].
Proof.
  intros H. unfold offset_limit.
  rewrite skipn_all2 by lia.
  destruct (limit <? 0)%Z; [reflexivity | apply firstn_nil].
Qed.

Lemma firstn_incl {A : Type} (n : nat) (l : list A) : incl (firstn n l) l.
Proof.
  intros x Hx. rewrite <- (firstn_skipn n l). apply in_or_app. auto.
Qed.

Lemma skipn_incl {A : Type} (n : nat) (l : list A) : incl (skipn n l) l.
Proof.
  intros x Hx. rewrite <- (firstn_skipn n l). apply in_or_app. auto.
Qed.

Lemma offset_limit_incl {A : Type} (offset limit : Z) (rows : list A) :
  incl (offset_limit offset limit rows) rows.
Proof.
  unfold offset_limit. intros x Hx.
  destruct (limit <? 0)%Z; [| apply firstn_incl in Hx];
    apply (skipn_incl _ _ _ Hx).
Qed.

End SqliteFacts.

Module MainFacts.
Import Main Props.

Lemma article_dicts_decodable (l : list Article) :
  forallb decodable l = true ->
  exists ds, article_dicts l = Ok ds /\ map d_id ds = map id l.
Proof.
  induction l as [| a l IH]; cbn [forallb article_dicts]; intros H.
  - exists []. auto.
  - apply andb_true_iff in H. destruct H as [Ha Hl].
    destruct (IH Hl) as [ds [Eds Eid]]. rewrite Eds.
    unfold decodable in Ha. unfold article_dict.
    destruct (Json.loads (tags a)) as [tl |]; [| discriminate].
    eexists. split; [reflexivity |]. cbn [map d_id]. rewrite Eid. reflexivity.
Qed.

Lemma forallb_incl {A : Type} (f : A -> bool) (l l' : list A) :
  incl l l' -> forallb f l' = true -> forallb f l = true.
Proof.
  intros Hi H. rewrite forallb_forall in *. auto.
Qed.

Lemma window_decodable (q : query) (offset limit : Z) (session : list Article) :
  forallb decodable session = true ->
  forallb decodable (Sqlite.offset_limit offset limit (exec_all q session))
  = true.
Proof.
  apply forallb_incl. intros a Ha.
  apply SqliteFacts.offset_limit_incl in Ha. unfold exec_all in Ha.
  apply filter_In in Ha. tauto.
Qed.

(** What [get_articles] answers on a table whose tags can be read back,
    when LIKE does not refuse the search. *)
Lemma get_articles_ok (category status search : option str)
  (limit offset : Z) (session : list Article) :
  search_raises category status search session = false ->
  Sqlite.fits_integer limit = true ->
  Sqlite.fits_integer offset = true ->
  forallb decodable session = true ->
  exists r,
    get_articles category status search limit offset session = Ok r
    /\ total r
       = Z.of_nat (List.length
                     (exec_all (build_query category status search) session))
    /\ has_more r = (offset + limit <? total r)%Z
    /\ article_dicts
         (Sqlite.offset_limit offset limit
            (exec_all (build_query category status search) session))
       = Ok (articles r).
Proof.
  intros Hs Hl Ho Hd. unfold get_articles. rewrite Hs, Hl, Ho.
  cbn [andb negb].
  destruct (article_dicts_decodable _
              (window_decodable (build_query category status search)
                 offset limit session Hd)) as [ds [Eds _]].
  rewrite Eds. eexists. repeat split; reflexivity.
Qed.

Lemma where_true (q : query) (clause : Article -> bool) (a : Article) :
  where_ q clause a = true <-> q a = true /\ clause a = true.
Proof. unfold where_. apply andb_true_iff. Qed.

Lemma truthy_nonempty (s : str) : truthy s = true <-> s <> [].
Proof. destruct s; cbn; split; congruence. Qed.

(** The query built from the filters, clause by clause. *)
Lemma build_query_true (category status search : option str) (a : Article) :
  build_query category status search a = true
  <-> selects category status search a.
Proof.
  unfold build_query, selects, applies.
  destruct category as [[| c0 c] |], status as [[| s0 s] |],
    search as [[| q0 q] |]; cbn [truthy];
    rewrite ?where_true, ?orb_true_iff, ?eqb_eq; unfold select_Article;
    (split;
     [ intros H; repeat split; intros x Ex Hx;
       first [ congruence | injection Ex as <-; tauto ]
     | intros [H1 [H2 H3]]; repeat split;
       first [ reflexivity
             | apply H1; [reflexivity | discriminate]
             | apply H2; [reflexivity | discriminate]
             | apply H3; [reflexivity | discriminate] ] ]).
Qed.

(** When LIKE refuses the search the call fails, whatever the window. *)
Lemma get_articles_raises (category status search : option str)
  (limit offset : Z) (session : list Article) :
  search_raises category status search session = true ->
  get_articles category status search limit offset session
  = Raise OperationalError.
Proof. intros H. unfold get_articles. rewrite H. reflexivity. Qed.

(** LIKE refuses the search exactly when the search string is not empty and
    has 49999 bytes or more, and some row passes the other filters. *)
Lemma search_raises_true (category status search : option str)
  (session : list Article) :
  search_raises category status search session = true
  <-> exists s,
        search = Some s /\ s <> []
        /\ 49999 <= Sqlite.value_bytes s
        /\ exists a, In a session /\ selects category status None a.
Proof.
  unfold search_raises. destruct search as [s |].
  - rewrite !andb_true_iff, truthy_nonempty,
      SqliteFacts.pattern_too_complex_contains, existsb_exists.
    split.
    + intros [[Hne Hlen] [a [Hin Ha]]]. exists s.
      repeat split; try assumption. exists a. split; [assumption |].
      apply build_query_true. assumption.
    + intros [s' [E [Hne [Hlen [a [Hin Ha]]]]]]. injection E as <-.
      repeat split; try assumption. exists a. split; [assumption |].
      apply build_query_true. assumption.
  - split; [discriminate |]. intros [s [E _]]. discriminate.
Qed.

(** A search string that is short enough is never refused. *)
Lemma search_fits_no_raise (category status search : option str)
  (session : list Article) :
  search_fits search -> search_raises category status search session = false.
Proof.
  intros H. destruct (search_raises category status search session) eqn:E;
    [| reflexivity].
  apply search_raises_true in E. destruct E as [s [E [_ [Hlen _]]]].
  specialize (H s E). unfold Sqlite.SQLITE_MAX_LIKE_PATTERN_LENGTH in H. lia.
Qed.

(** A search that is not refused on a table is not refused on a part of
    it. *)
Lemma search_raises_app (category status search : option str)
  (session more : list Article) :
  search_raises category status search (session ++ more) = false ->
  search_raises category status search session = false.
Proof.
  unfold search_raises. destruct search as [s |]; [| reflexivity].
  rewrite existsb_app.
  destruct (truthy s && Sqlite.pattern_too_complex (Sqlite.contains_pattern s));
    cbn [andb]; [| reflexivity].
  destruct (existsb (build_query category status None) session);
    [discriminate | reflexivity].
Qed.

(** The tags that the handlers store can be read back. *)
Lemma sample_articles_decodable (uuid_a uuid_b : str) (now : datetime) :
  forallb decodable (Database.sample_articles uuid_a uuid_b now) = true.
Proof. reflexivity. Qed.

Lemma dumps_decodable (a : Article) (l : list str) :
  Forall text l -> tags a = Json.dumps l -> decodable a = true.
Proof.
  intros Hl E. unfold decodable. rewrite E, (JsonFacts.loads_dumps l Hl).
  reflexivity.
Qed.

Lemma create_article_decodable (uuid4 : str) (now : datetime)
  (data : CreateArticleData) (session : list Article) (current_user : User) :
  Forall text (c_tags data) ->
  forallb decodable session = true ->
  forallb decodable
    (fst (create_article uuid4 now data session current_user)) = true.
Proof.
  intros Hl Hs. unfold create_article, insert. cbn [id].
  destruct (existsb _ session); cbn [fst]; [assumption |].
  rewrite forallb_app, Hs. cbn [forallb andb]. rewrite andb_true_r.
  apply (dumps_decodable _ (c_tags data)); [assumption | reflexivity].
Qed.

End MainFacts.

Module UpdateFacts.

Lemma store_length (a : Article) (session : list Article) :
  List.length (store a session) = List.length session.
Proof.
  induction session as [| b session IH]; [reflexivity |].
  cbn [store]. destruct (PyStr.eqb (id b) (id a)); cbn [List.length];
    congruence.
Qed.

(** Rows with another primary key are not touched by [store]. *)
Lemma store_others (a : Article) (session : list Article) :
  filter (fun b => negb (PyStr.eqb (id b) (id a))) (store a session)
  = filter (fun b => negb (PyStr.eqb (id b) (id a))) session.
Proof.
  induction session as [| b session IH]; [reflexivity |].
  cbn [store]. destruct (PyStr.eqb (id b) (id a)) eqn:E.
  - cbn [filter]. rewrite E, eqb_refl. reflexivity.
  - cbn [filter]. rewrite E. cbn [negb]. rewrite IH. reflexivity.
Qed.

(** [store] rewrites the first row that has the primary key, the row that
    the handler read, and nothing else. *)
Lemma store_split (k : str) (a a' : Article) (session : list Article) :
  find (fun b => PyStr.eqb (id b) k) session = Some a ->
  id a' = k ->
  exists pre post,
    session = pre ++ a :: post
    /\ store a' session = pre ++ a' :: post
    /\ Forall (fun b => id b <> k) pre.
Proof.
  intros Hfind <-. induction session as [| b session IH]; [discriminate |].
  cbn [find] in Hfind. cbn [store].
  destruct (PyStr.eqb (id b) (id a')) eqn:E.
  - injection Hfind as ->. exists [], session. repeat split. constructor.
  - destruct (IH Hfind) as [pre [post [Es [Et Hpre]]]].
    exists (b :: pre), post. cbn [app]. rewrite <- Es, Et.
    repeat split. constructor; [| assumption].
    intros Hb. rewrite Hb, eqb_refl in E. discriminate.
Qed.

(** After [store] the row found under the primary key is the one stored. *)
Lemma store_read_back (k : str) (a' : Article) (session : list Article) :
  find (fun b => PyStr.eqb (id b) k) session <> None ->
  id a' = k ->
  find (fun b => PyStr.eqb (id b) k) (store a' session) = Some a'.
Proof.
  intros Hfind <-. induction session as [| b session IH];
    [contradiction Hfind; reflexivity |].
  cbn [find] in Hfind. cbn [store].
  destruct (PyStr.eqb (id b) (id a')) eqn:E; cbn [find].
  - rewrite eqb_refl. reflexivity.
  - rewrite E. apply IH. exact Hfind.
Qed.

Lemma apply_update_fields (data : UpdateArticleData) (a : Article) :
  let a' := apply_update data a in
  id a' = id a
  /\ author a' = author a
  /\ published_at a' = published_at a
  /\ title a' = patched (u_title data) (title a)
  /\ content a' = patched (u_content data) (content a)
  /\ excerpt a' = patched (u_excerpt data) (excerpt a)
  /\ category a' = patched (u_category data) (category a)
  /\ status a' = patched (u_status data) (status a)
  /\ image_url a'
     = match u_image_url data with
       | Some u => Some u
       | None => image_url a
       end
  /\ tags a'
     = match u_tags data with
       | Some l => Json.dumps l
       | None => tags a
       end
  /\ read_time a'
     = match u_content data with
       | Some c => read_time_label c
       | None => read_time a
       end.
Proof.
  destruct data as [t c e g l u s].
  destruct t, c, e, g, l, u, s; cbn; repeat split.
Qed.

End UpdateFacts.


Module CreateFacts.

Lemma existsb_id_false (k : str) (session : list Article) :
  existsb (fun a => PyStr.eqb (id a) k) session = false ->
  ~ In k (map id session).
Proof.
  intros H Hin. apply in_map_iff in Hin. destruct Hin as [a [E Ha]].
  assert (existsb (fun a => PyStr.eqb (id a) k) session = true).
  { apply existsb_exists. exists a. split; [assumption |].
    apply eqb_eq. assumption. }
  congruence.
Qed.

Lemma insert_keeps_keys_distinct (a : Article) (session session' : list Article) :
  NoDup (map id session) ->
  insert a session = Ok session' ->
  NoDup (map id session').
Proof.
  unfold insert. intros Hn.
  destruct (existsb _ session) eqn:E; [discriminate |].
  intros H. injection H as <-. rewrite map_app. cbn [map].
  apply existsb_id_false in E. apply NoDup_app.
  - assumption.
  - repeat constructor. intros [].
  - intros x Hx [<- | []]. contradiction.
Qed.

End CreateFacts.


Module PasslibFacts.

Lemma firstn_exact {A : Type} (l r : list A) :
  firstn (List.length l) (l ++ r) = l.
Proof. induction l; cbn; congruence. Qed.

Lemma skipn_exact {A : Type} (l r : list A) :
  skipn (List.length l) (l ++ r) = r.
Proof. induction l; cbn; congruence. Qed.

Lemma parse_hash_built (salt chk : str) :
  List.length salt = 22%nat -> List.length chk = 31%nat ->
  parse_hash (bcrypt_config ++ salt ++ chk) = Some (salt, chk).
Proof.
  intros Hs Hc. unfold parse_hash.
  replace (List.length (bcrypt_config ++ salt ++ chk)) with 60%nat
    by (rewrite !length_app, Hs, Hc; reflexivity).
  change (firstn 7 (bcrypt_config ++ salt ++ chk)) with bcrypt_config.
  rewrite eqb_refl. cbn [Nat.eqb andb].
  change (skipn 7 (bcrypt_config ++ salt ++ chk)) with (salt ++ chk).
  change (skipn 29 (bcrypt_config ++ salt ++ chk))
    with (skipn 22 (salt ++ chk)).
  rewrite <- Hs, firstn_exact, skipn_exact. reflexivity.
Qed.

Lemma sample_digest_length (key : list N) (salt : str) :
  List.length (sample_digest key salt) = 31%nat.
Proof.
  unfold sample_digest. rewrite length_firstn, !length_app, repeat_length.
  lia.
Qed.

Section Digest.

Variable bcrypt_digest : list N -> str -> str.
Hypothesis digest_length :
  forall key salt, List.length (bcrypt_digest key salt) = 31%nat.

Lemma hash_password_ok (salt password : str) (secret : list N) :
  norm_secret password = Ok secret ->
  hash_password bcrypt_digest salt password
  = Ok (bcrypt_config ++ salt ++ bcrypt_digest (firstn 72 secret) salt).
Proof.
  intros Hn. unfold hash_password, calc_checksum, bcrypt_hashpw.
  rewrite Hn, digest_length. reflexivity.
Qed.

Lemma verify_password_built (salt chk plain : str) (secret : list N) :
  List.length salt = 22%nat -> List.length chk = 31%nat ->
  norm_secret plain = Ok secret ->
  verify_password bcrypt_digest plain (bcrypt_config ++ salt ++ chk)
  = Ok (PyStr.eqb (bcrypt_digest (firstn 72 secret) salt) chk).
Proof.
  intros Hs Hc Hn. unfold verify_password, calc_checksum, bcrypt_hashpw.
  rewrite parse_hash_built by assumption.
  rewrite Hn, digest_length. reflexivity.
Qed.

End Digest.

End PasslibFacts.


(** * The claims *)

Import MainFacts.

Section TokenVerification.

Variable jwt_decode : str -> str -> list str -> decoded.

(** C1 (amended): [get_current_user] does not tell the failure causes
    apart.  Whenever verification fails in the specification's sense (bad
    signature, malformed token or missing subject; expired token; subject
    that is no user) the caller gets the one [credentials_exception], the
    401 "Could not validate credentials"; and when no failure applies the
    token decodes to claims whose subject is the id of a stored user, and
    that user is returned. *)
Theorem get_current_user_single_failure
  (credentials : str) (session : list User) :
  match Spec.token_failure
          (jwt_decode credentials SECRET_KEY [ALGORITHM]) session with
  | Some _ =>
      get_current_user jwt_decode credentials session
      = Raise credentials_exception
  | None =>
      exists payload user,
        jwt_decode credentials SECRET_KEY [ALGORITHM] = Claims payload
        /\ sub payload = Some (user_id user)
        /\ In user session
        /\ get_current_user jwt_decode credentials session = Ok user
  end.
Proof.
  unfold Spec.token_failure, get_current_user.
  destruct (jwt_decode credentials SECRET_KEY [ALGORITHM]) as [payload | e].
  - destruct (sub payload) as [uid |] eqn:Esub; [| reflexivity].
    destruct (find (fun u => PyStr.eqb (user_id u) uid) session)
      as [user |] eqn:Efind; [| reflexivity].
    apply find_some in Efind. destruct Efind as [Hin Hid].
    apply eqb_eq in Hid. subst uid.
    exists payload, user. repeat split; assumption.
  - destruct e; reflexivity.
Qed.

End TokenVerification.

(** C1 as stated fails: an expired token and a token with a bad signature
    fail for different kinds and are answered alike. *)
Lemma get_current_user_failures_coincide :
  Spec.token_failure
    (sample_jwt_decode (py "expired") SECRET_KEY [ALGORITHM]) users
  = Some Spec.ExpiredToken
  /\ Spec.token_failure
       (sample_jwt_decode (py "tampered") SECRET_KEY [ALGORITHM]) users
     = Some Spec.InvalidToken
  /\ Spec.token_failure
       (sample_jwt_decode (py "no-such-user") SECRET_KEY [ALGORITHM]) users
     = Some Spec.UnknownSubject
  /\ get_current_user sample_jwt_decode (py "expired") users
     = get_current_user sample_jwt_decode (py "tampered") users
  /\ get_current_user sample_jwt_decode (py "tampered") users
     = get_current_user sample_jwt_decode (py "no-such-user") users
  /\ ~ Spec.failures_distinct sample_jwt_decode users.
Proof.
  do 5 (split; [reflexivity |]).
  intros H.
  apply (H (py "expired") (py "tampered") Spec.ExpiredToken Spec.InvalidToken);
    [reflexivity | reflexivity | discriminate | reflexivity].
Qed.

Example sample_token_outcomes :
  get_current_user sample_jwt_decode (py "expired") users
    = Raise credentials_exception
  /\ get_current_user sample_jwt_decode (py "tampered") users
    = Raise credentials_exception
  /\ get_current_user sample_jwt_decode (py "anonymous") users
    = Raise credentials_exception
  /\ get_current_user sample_jwt_decode (py "no-such-user") users
    = Raise credentials_exception
  /\ get_current_user sample_jwt_decode (py "3f2b8c1e-user") users = Ok admin.
Proof. repeat split; reflexivity. Qed.

Section Authentication.

Variable bcrypt_digest : list N -> str -> str.
Variable jwt_encode : Payload -> str -> str -> str.

(** When no user has the email, and when a user has it but
    [verify_password] answers [False], [authenticate_user] returns the same
    [False] and [login] raises the same 401 "Incorrect email or password":
    for a verification that answers, the caller sees one outcome for both
    causes. *)
Lemma login_same_failure (utcnow : datetime) (session : list User)
  (email password : str) :
  let by_email := find (fun u => PyStr.eqb (user_email u) email) session in
  (by_email = None
   \/ exists u, by_email = Some u
        /\ verify_password bcrypt_digest password (password_hash u)
           = Ok false) ->
  authenticate_user bcrypt_digest session email password = Ok ReturnFalse
  /\ Main.login bcrypt_digest jwt_encode utcnow
       {| cred_email := email; cred_password := password |} session
     = Raise Main.incorrect_email_or_password.
Proof.
  intros by_email H. unfold Main.login. cbn [cred_email cred_password].
  assert (Hauth :
    authenticate_user bcrypt_digest session email password = Ok ReturnFalse).
  { unfold authenticate_user. fold by_email.
    destruct H as [-> | [u [-> Hv]]]; [reflexivity |].
    rewrite Hv. reflexivity. }
  rewrite Hauth. split; reflexivity.
Qed.

(** A password that passlib refuses makes [login] raise passlib's
    exception when a user has the email: none of the exceptions is the 401
    of an email that no user has. *)
Lemma login_refused_password (utcnow : datetime) (session : list User)
  (email password : str) (u : User) (e : exn) :
  find (fun u => PyStr.eqb (user_email u) email) session = Some u ->
  parse_hash (password_hash u) <> None ->
  norm_secret password = Raise e ->
  Main.login bcrypt_digest jwt_encode utcnow
    {| cred_email := email; cred_password := password |} session
  = Raise e
  /\ e <> Main.incorrect_email_or_password.
Proof.
  intros Hfind Hhash Hnorm. split.
  - unfold Main.login, authenticate_user, verify_password.
    cbn [cred_email cred_password]. rewrite Hfind.
    destruct (parse_hash (password_hash u)) as [[salt chk] |];
      [| contradiction Hhash; reflexivity].
    rewrite Hnorm. reflexivity.
  - unfold norm_secret in Hnorm. unfold Main.incorrect_email_or_password.
    destruct (4096 <? List.length password)%nat; [congruence |].
    destruct (utf8 password) as [secret |]; [| congruence].
    destruct (4096 <? List.length secret)%nat; [congruence |].
    destruct (existsb (N.eqb 0) secret); congruence.
Qed.

(** C2 fails on the code: the two causes can be told apart.  passlib does
    not answer [False] for a password that holds a NUL or has more than 4096
    bytes, it raises; [authenticate_user] calls [verify_password] only when
    a user has the email and has no handler around the call.  So with such a
    password [login] lets passlib's exception through for the email of the
    seeded administrator and raises the 401 for an email that no user has,
    whatever the bcrypt core and the token encoder. *)
Theorem login_tells_known_email (utcnow : datetime) :
  Main.login bcrypt_digest jwt_encode utcnow
    {| cred_email := py "admin@example.com"; cred_password := nul_password |}
    users
  = Raise NullPasswordError
  /\ Main.login bcrypt_digest jwt_encode utcnow
       {| cred_email := py "nobody@example.com";
          cred_password := nul_password |}
       users
     = Raise Main.incorrect_email_or_password
  /\ Main.login bcrypt_digest jwt_encode utcnow
       {| cred_email := py "admin@example.com";
          cred_password := long_password |}
       users
     = Raise PasswordSizeError
  /\ Main.login bcrypt_digest jwt_encode utcnow
       {| cred_email := py "nobody@example.com";
          cred_password := long_password |}
       users
     = Raise Main.incorrect_email_or_password
  /\ authenticate_user bcrypt_digest users (py "admin@example.com")
       nul_password
     <> authenticate_user bcrypt_digest users (py "nobody@example.com")
          nul_password.
Proof.
  assert (Hadmin : find (fun u => PyStr.eqb (user_email u)
                                    (py "admin@example.com")) users
                   = Some admin) by reflexivity.
  assert (Hhash : parse_hash (password_hash admin) <> None)
    by (vm_compute; discriminate).
  split; [| split; [reflexivity | split; [| split; [reflexivity |]]]].
  - apply (login_refused_password utcnow users _ _ admin _ Hadmin Hhash).
    reflexivity.
  - apply (login_refused_password utcnow users _ _ admin _ Hadmin Hhash).
    reflexivity.
  - vm_compute. discriminate.
Qed.

End Authentication.

Lemma login_same_failure_witness :
  Main.login sample_digest sample_jwt_encode 0%Z
    {| cred_email := py "nobody@example.com"; cred_password := py "admin123" |}
    users
  = Raise Main.incorrect_email_or_password
  /\ Main.login sample_digest sample_jwt_encode 0%Z
       {| cred_email := py "admin@example.com"; cred_password := py "wrong" |}
       users
     = Raise Main.incorrect_email_or_password.
Proof.
  split.
  - apply (login_same_failure sample_digest sample_jwt_encode 0%Z users
             (py "nobody@example.com") (py "admin123")).
    left. reflexivity.
  - apply (login_same_failure sample_digest sample_jwt_encode 0%Z users
             (py "admin@example.com") (py "wrong")).
    right. exists admin. split; reflexivity.
Defined.

Example login_succeeds :
  exists r, Main.login sample_digest sample_jwt_encode 0%Z
    {| cred_email := py "admin@example.com"; cred_password := py "admin123" |}
    users = Ok r /\ ud_name (user r) = py "Admin".
Proof. eexists. split; reflexivity. Qed.

(** C3 (amended): on a table whose tags can be read back, and for a limit
    and an offset that the storage can bind, a record is selected iff it
    satisfies every filter that is given and not empty: category and status
    by equality with the stored text, search by
    [title LIKE '%' || search || '%'] or the same on [content].  In the
    search string [%] and [_] are wildcards and ASCII letters match in
    either case (U+FFFE and U+FFFF are read as U+FFFD); LIKE reads the
    search string and the column up to their first NUL.  So a search string
    without wildcards and without NUL is found exactly when it occurs in the
    column, as far as the column's first NUL, up to the case of ASCII
    letters; and of a search string with a NUL
    only the part before the NUL counts, which must end the column.  A
    search string of 49999 bytes or more is refused by LIKE: the call fails
    when some record passes the category and status filters.  Otherwise the
    items are the window over the selected records and [total] counts all of
    them. *)
Theorem get_articles_selects (category status search : option str)
  (limit offset : Z) (session : list Article) :
  Sqlite.fits_integer limit = true ->
  Sqlite.fits_integer offset = true ->
  forallb decodable session = true ->
  let matching := exec_all (build_query category status search) session in
  (if search_raises category status search session
   then get_articles category status search limit offset session
        = Raise OperationalError
   else exists r,
          get_articles category status search limit offset session = Ok r
          /\ article_dicts (Sqlite.offset_limit offset limit matching)
             = Ok (articles r)
          /\ total r = Z.of_nat (List.length matching))
  /\ (forall a, In a matching
                <-> In a session /\ selects category status search a)
  /\ (search_raises category status search session = true
      <-> exists s,
            search = Some s /\ s <> []
            /\ 49999 <= Sqlite.value_bytes s
            /\ exists a, In a session /\ selects category status None a)
  /\ (forall s column, wildcard_free s -> nul_free s ->
        (Sqlite.contains column s = true
         <-> occurs_nocase s (Sqlite.c_string column)))
  /\ (forall s column, wildcard_free (Sqlite.c_string s) -> In 0 s ->
        (Sqlite.contains column s = true
         <-> ends_nocase (Sqlite.c_string s) (Sqlite.c_string column))).
Proof.
  intros Hl Ho Hd matching. split; [| split; [| split; [| split]]].
  - destruct (search_raises category status search session) eqn:Hs.
    + apply get_articles_raises. exact Hs.
    + destruct (get_articles_ok category status search limit offset session
                  Hs Hl Ho Hd) as [r [E [Ht [_ Hitems]]]].
      exists r. split; [exact E |]. split; [exact Hitems | exact Ht].
  - intros a. unfold matching, exec_all.
    rewrite filter_In, build_query_true. reflexivity.
  - apply search_raises_true.
  - intros s column. apply SqliteFacts.contains_wildcard_free.
  - intros s column. apply SqliteFacts.contains_nul.
Qed.

Lemma get_articles_selects_witness :
  exists r,
    get_articles (Some (py "market")) None (Some (py "BITCOIN")) 10 0 articles2
    = Ok r
    /\ total r = 1%Z.
Proof.
  destruct (get_articles_selects (Some (py "market")) None
              (Some (py "BITCOIN")) 10 0 articles2 eq_refl eq_refl eq_refl)
    as [[r [E [_ Ht]]] _].
  exists r. split; [exact E | exact Ht].
Defined.

(** C3 as stated fails: the searches [%], [re_ched] and [BITCOIN] select
    articles that do not hold them as literal substrings, and an empty
    category selects every article although none has the empty category.
    A search with a NUL
    after its first letter selects the article whose title ends with that
    letter, and a search of 49999 bytes makes the call fail. *)
Lemma get_articles_not_as_specified :
  (exists r,
     get_articles None None (Some (py "%")) 10 0 articles2 = Ok r
     /\ total r = 2%Z)
  /\ filter (Spec.selected None None (Some (py "%"))) articles2 = []
  /\ ~ Spec.list_as_specified None None (Some (py "%")) 10 0 articles2
  /\ ~ Spec.list_as_specified None None (Some (py "re_ched")) 10 0 articles2
  /\ ~ Spec.list_as_specified (Some []) None None 10 0 articles2
  /\ (exists r,
        get_articles None None (Some nul_search) 10 0 articles2 = Ok r
        /\ map d_id (articles r) = [py "uuid-a"])
  /\ ~ Spec.list_as_specified None None (Some nul_search) 10 0 articles2
  /\ get_articles None None (Some long_search) 10 0 articles2
     = Raise OperationalError
  /\ ~ Spec.list_as_specified None None (Some long_search) 10 0 articles2
  /\ ~ Spec.list_as_specified None None (Some (py "BITCOIN")) 10 0 articles2.
Proof.
  split; [eexists; split; reflexivity |].
  split; [reflexivity |].
  assert (Hlong : get_articles None None (Some long_search) 10 0 articles2
                  = Raise OperationalError) by (vm_compute; reflexivity).
  split; [| split; [| split; [| split; [| split; [| split; [exact Hlong |]]]]]].
  - intros [r [E [Ht _]]]; vm_compute in E;
      injection E as <-; vm_compute in Ht; discriminate.
  - intros [r [E [Ht _]]]; vm_compute in E;
      injection E as <-; vm_compute in Ht; discriminate.
  - intros [r [E [Ht _]]]; vm_compute in E;
      injection E as <-; vm_compute in Ht; discriminate.
  - eexists; split; reflexivity.
  - intros [r [E [Ht _]]]; vm_compute in E;
      injection E as <-; vm_compute in Ht; discriminate.
  - split.
    + intros [r [E _]]. rewrite Hlong in E. discriminate.
    + intros [r [E [Ht _]]]; vm_compute in E;
        injection E as <-; vm_compute in Ht; discriminate.
Qed.

(** The limit of LIKE at work: a search of 49998 bytes is answered, and one
    of 49999 bytes is answered too when no record passes the category
    filter, since LIKE is then never called. *)
Example get_articles_pattern_limit :
  (exists r,
     get_articles None None (Some (repeat 97 (N.to_nat 49998))) 10 0 articles2
     = Ok r
     /\ total r = 0%Z)
  /\ search_raises None None (Some long_search) articles2 = true
  /\ search_raises (Some (py "event")) None (Some long_search) articles2
     = false.
Proof.
  split; [eexists; split; vm_compute; reflexivity |].
  split; vm_compute; reflexivity.
Qed.

(** C4: on a table whose tags can be read back, every list call, with a
    search that LIKE does not refuse and a limit and an offset that the
    storage can bind, returns [has_more = (offset + limit) < total], with
    [total] the number of records that match the filters. *)
Theorem get_articles_has_more (category status search : option str)
  (limit offset : Z) (session : list Article) :
  search_raises category status search session = false ->
  Sqlite.fits_integer limit = true ->
  Sqlite.fits_integer offset = true ->
  forallb decodable session = true ->
  exists r,
    get_articles category status search limit offset session = Ok r
    /\ total r
       = Z.of_nat (List.length
                     (exec_all (build_query category status search) session))
    /\ has_more r = (offset + limit <? total r)%Z.
Proof.
  intros Hs Hl Ho Hd.
  destruct (get_articles_ok category status search limit offset session
              Hs Hl Ho Hd) as [r [E [Ht [Hm _]]]].
  exists r. auto.
Qed.

Lemma get_articles_has_more_witness :
  (exists r, get_articles (Some (py "market")) None None 10 0 (numbered 25)
             = Ok r
             /\ List.length (articles r) = 10%nat
             /\ total r = 25%Z /\ has_more r = true)
  /\ (exists r, get_articles (Some (py "market")) None None 10 20 (numbered 25)
                = Ok r
                /\ List.length (articles r) = 5%nat
                /\ total r = 25%Z /\ has_more r = false).
Proof.
  split.
  - destruct (get_articles_has_more (Some (py "market")) None None 10 0
                (numbered 25) eq_refl eq_refl eq_refl eq_refl)
      as [r [E [Ht Hm]]].
    exists r. split; [exact E |].
    rewrite Hm, Ht. clear Hm Ht.
    vm_compute in E. injection E as <-. repeat split.
  - destruct (get_articles_has_more (Some (py "market")) None None 10 20
                (numbered 25) eq_refl eq_refl eq_refl eq_refl)
      as [r [E [Ht Hm]]].
    exists r. split; [exact E |].
    rewrite Hm, Ht. clear Hm Ht.
    vm_compute in E. injection E as <-. repeat split.
Defined.

(** C5 (amended): on a table whose tags can be read back, and for a search
    that LIKE does not refuse and a limit and an offset that the storage can
    bind, [total] is always the full
    count of the matching records; [limit = 0] gives no items; a
    negative [limit] is no limit for the storage, so the items are all the
    matching records from [offset] on; and [offset >= total] gives no items,
    with [has_more = false] whenever [limit >= 0]. *)
Theorem get_articles_window_edges (category status search : option str)
  (limit offset : Z) (session : list Article) :
  search_raises category status search session = false ->
  Sqlite.fits_integer limit = true ->
  Sqlite.fits_integer offset = true ->
  forallb decodable session = true ->
  let matching := exec_all (build_query category status search) session in
  exists r,
    get_articles category status search limit offset session = Ok r
    /\ total r = Z.of_nat (List.length matching)
    /\ (limit = 0%Z -> articles r = [])
    /\ ((limit < 0)%Z ->
        article_dicts (skipn (Z.to_nat offset) matching) = Ok (articles r))
    /\ ((total r <= offset)%Z ->
        articles r = [] /\ ((0 <= limit)%Z -> has_more r = false)).
Proof.
  intros Hs Hlim Hoff Hd matching.
  destruct (get_articles_ok category status search limit offset session
              Hs Hlim Hoff Hd) as [r [E [Ht [Hm Hitems]]]].
  fold matching in Ht, Hitems.
  exists r. split; [exact E |]. split; [exact Ht |].
  split; [| split].
  - intros ->. rewrite SqliteFacts.offset_limit_zero in Hitems.
    cbn [article_dicts] in Hitems. congruence.
  - intros Hneg. unfold Sqlite.offset_limit in Hitems.
    apply Z.ltb_lt in Hneg. rewrite Hneg in Hitems. assumption.
  - intros Hbeyond. split.
    + rewrite Ht in Hbeyond.
      rewrite (SqliteFacts.offset_limit_beyond _ _ _ Hbeyond) in Hitems.
      cbn [article_dicts] in Hitems. congruence.
    + intros Hl. rewrite Hm. apply Z.ltb_ge. lia.
Qed.

Lemma get_articles_window_edges_witness :
  exists r,
    get_articles None None None 0 0 articles2 = Ok r
    /\ articles r = [] /\ total r = 2%Z.
Proof.
  destruct (get_articles_window_edges None None None 0 0 articles2
              eq_refl eq_refl eq_refl eq_refl) as [r [E [Ht [Hz _]]]].
  exists r. split; [exact E |]. split; [exact (Hz eq_refl) | exact Ht].
Defined.

(** C5 as stated fails for negative limits: with [limit = -10] and
    [offset = 5] over two records [has_more] is true although
    [offset >= total], and with [limit = -1] the items are not empty. *)
Lemma get_articles_negative_limit :
  (exists r,
     get_articles None None None (-10) 5 articles2 = Ok r
     /\ total r = 2%Z /\ articles r = [] /\ has_more r = true)
  /\ (exists r,
        get_articles None None None (-1) 0 articles2 = Ok r
        /\ List.length (articles r) = 2%nat)
  /\ ~ Spec.window_edges None None None (-10) 5 articles2
  /\ ~ Spec.window_edges None None None (-1) 0 articles2.
Proof.
  split; [eexists; repeat split |].
  split; [eexists; split; reflexivity |].
  split; intros [r [E [Hl Ho]]]; vm_compute in E; injection E as <-.
  - destruct Ho as [_ Hm]; [vm_compute; discriminate |].
    vm_compute in Hm. discriminate.
  - destruct Hl as [Hi _]; [vm_compute; discriminate |].
    vm_compute in Hi. discriminate.
Qed.

(** C10: a filter given as the empty string is treated as absent: the list
    call answers exactly as without that filter.  With an empty category the
    sample table answers both its articles, of two categories, while no
    article has the empty category. *)
Theorem get_articles_empty_filter_absent (category status search : option str)
  (limit offset : Z) (session : list Article) :
  get_articles (Some []) status search limit offset session
  = get_articles None status search limit offset session
  /\ get_articles category (Some []) search limit offset session
     = get_articles category None search limit offset session
  /\ get_articles category status (Some []) limit offset session
     = get_articles category status None limit offset session
  /\ (exists r,
        get_articles (Some []) None None 10 0 articles2 = Ok r
        /\ map d_category (articles r) = [market; regulation]
        /\ filter (fun a => PyStr.eqb (CategoryEnum_value (Models.category a))
                              [])
             articles2 = []).
Proof.
  split; [reflexivity |]. split; [| split].
  - unfold get_articles, build_query.
    destruct category as [[| ? ?] |]; reflexivity.
  - unfold get_articles, build_query.
    destruct category as [[| ? ?] |], status as [[| ? ?] |]; reflexivity.
  - eexists. split; [reflexivity |]. split; reflexivity.
Qed.

(** C6: updating an existing article changes exactly the fields the request
    provides: each of title, content, excerpt, category, status, image_url
    and tags takes the provided value or keeps its previous one; id, author
    and published_at are kept; [read_time] is recomputed as
    [len(content.split()) // 200 + 1] minutes when content is provided and
    kept otherwise.  The table after the call is the table before it with
    the article's row replaced, in its place, by the updated article: a
    lookup of the id finds the updated article, and the other rows of the
    table are untouched. *)
Theorem update_article_patches (article_id : str) (data : UpdateArticleData)
  (session : list Article) (current_user : User) (article : Article) :
  find (fun a => PyStr.eqb (id a) article_id) session = Some article ->
  match u_tags data with
  | Some l => Forall text l
  | None => decodable article = true
  end ->
  exists article' d,
    update_article article_id data session current_user
    = (store article' session, Ok d)
    /\ article_dict article' = Ok d
    /\ id article' = id article
    /\ author article' = author article
    /\ published_at article' = published_at article
    /\ title article' = patched (u_title data) (title article)
    /\ content article' = patched (u_content data) (content article)
    /\ excerpt article' = patched (u_excerpt data) (excerpt article)
    /\ category article' = patched (u_category data) (category article)
    /\ status article' = patched (u_status data) (status article)
    /\ image_url article'
       = match u_image_url data with
         | Some u => Some u
         | None => image_url article
         end
    /\ tags article'
       = match u_tags data with
         | Some l => Json.dumps l
         | None => tags article
         end
    /\ read_time article'
       = match u_content data with
         | Some c =>
             str_of_N (N.of_nat (List.length (PyStr.split c)) / 200 + 1)
             ++ py " min"
         | None => read_time article
         end
    /\ List.length (store article' session) = List.length session
    /\ filter (fun b => negb (PyStr.eqb (id b) article_id))
         (store article' session)
       = filter (fun b => negb (PyStr.eqb (id b) article_id)) session
    /\ find (fun a => PyStr.eqb (id a) article_id)
         (fst (update_article article_id data session current_user))
       = Some article'
    /\ get_article article_id
         (fst (update_article article_id data session current_user))
       = Ok d
    /\ exists pre post,
         session = pre ++ article :: post
         /\ fst (update_article article_id data session current_user)
            = pre ++ article' :: post
         /\ Forall (fun b => id b <> article_id) pre.
Proof.
  intros Hfind Htags.
  pose proof (UpdateFacts.apply_update_fields data article) as F.
  cbv zeta in F.
  set (article' := apply_update data article) in *.
  destruct F as [Fid [Fau [Fpu [Fti [Fco [Fex [Fca [Fst [Fim [Fta Frt]]]]]]]]]].
  assert (Hloads : exists tl, Json.loads (tags article') = Some tl).
  { rewrite Fta. destruct (u_tags data) as [l |].
    - exists l. apply JsonFacts.loads_dumps. assumption.
    - unfold decodable in Htags.
      destruct (Json.loads (tags article)) as [tl |]; [| discriminate].
      exists tl. reflexivity. }
  destruct Hloads as [tl Htl].
  assert (Hdict : exists d, article_dict article' = Ok d).
  { unfold article_dict. rewrite Htl. eexists. reflexivity. }
  destruct Hdict as [d Hd].
  exists article', d.
  assert (Hid : id article' = article_id).
  { rewrite Fid. apply find_some in Hfind. destruct Hfind as [_ Hfind].
    apply eqb_eq in Hfind. assumption. }
  assert (Hcall : update_article article_id data session current_user
                  = (store article' session, Ok d)).
  { unfold update_article. rewrite Hfind. fold article'. rewrite Hd.
    reflexivity. }
  assert (Hback : find (fun a => PyStr.eqb (id a) article_id)
                    (store article' session) = Some article').
  { apply UpdateFacts.store_read_back; [congruence | exact Hid]. }
  split; [exact Hcall |].
  split; [exact Hd |].
  repeat (split; [assumption |]).
  split; [apply UpdateFacts.store_length |].
  split; [rewrite <- Hid; apply UpdateFacts.store_others |].
  rewrite Hcall. cbn [fst].
  split; [exact Hback |].
  split; [unfold get_article; rewrite Hback; exact Hd |].
  apply (UpdateFacts.store_split article_id article article' session Hfind Hid).
Qed.

Lemma update_article_patches_witness :
  exists article' d,
    update_article (py "uuid-a") (only_content (py "new text")) articles2 admin
    = (store article' articles2, Ok d)
    /\ title article' = title (Database.bitcoin_article (py "uuid-a") 0%Z)
    /\ category article' = market
    /\ tags article' = Json.dumps [py "bitcoin"; py "crypto"; py "market"]
    /\ content article' = py "new text"
    /\ read_time article' = py "1 min"
    /\ find (fun a => PyStr.eqb (id a) (py "uuid-a"))
         (fst (update_article (py "uuid-a") (only_content (py "new text"))
                 articles2 admin))
       = Some article'
    /\ fst (update_article (py "uuid-a") (only_content (py "new text"))
              articles2 admin)
       = [article'; Database.defi_article (py "uuid-b") 0%Z].
Proof.
  destruct (update_article_patches (py "uuid-a")
              (only_content (py "new text")) articles2 admin
              (Database.bitcoin_article (py "uuid-a") 0%Z)
              eq_refl eq_refl)
    as (a' & d & E & _ & _ & _ & _ & Ht & Hc & _ & Hg & _ & _ & Hl & Hr
        & _ & _ & Hfind & _ & pre & post & Es & Et & Hpre).
  exists a', d. split; [exact E |]. split; [exact Ht |].
  split; [exact Hg |]. split; [exact Hl |]. split; [exact Hc |].
  split; [exact Hr |]. split; [exact Hfind |].
  rewrite Et. clear - Es Hpre.
  unfold articles2, Database.sample_articles in Es.
  destruct pre as [| b pre]; cbn [app] in Es.
  - injection Es as <-. reflexivity.
  - exfalso. inversion Hpre as [| ? ? Hb _]; subst.
    injection Es as <- _. apply Hb. reflexivity.
Defined.

(** C7: [create_article] gives the new article the UUID drawn by the
    handler.  If that id is taken the storage refuses the row; otherwise the
    article is appended with that id, which no stored article had, and the
    ids stay pairwise distinct; its author is the acting user's name, its
    [read_time] is [len(content.split()) // 200 + 1] minutes (at least 1),
    and its status is [published] when the request leaves status out or
    sends null. *)
Theorem create_article_record (uuid4 : str) (now : datetime)
  (data : CreateArticleData) (session : list Article) (current_user : User) :
  Forall text (c_tags data) ->
  NoDup (map id session) ->
  let words := N.of_nat (List.length (PyStr.split (c_content data))) in
  if existsb (fun a => PyStr.eqb (id a) uuid4) session
  then create_article uuid4 now data session current_user
       = (session, Raise IntegrityError)
  else
    exists article d,
      create_article uuid4 now data session current_user
      = (session ++ [article], Ok d)
      /\ id article = uuid4
      /\ ~ In uuid4 (map id session)
      /\ NoDup (map id (session ++ [article]))
      /\ author article = user_name current_user
      /\ read_time article = str_of_N (words / 200 + 1) ++ py " min"
      /\ 1 <= words / 200 + 1
      /\ (c_status data = None
          \/ c_status data = CreateArticleData_status_default ->
          status article = published)
      /\ (forall s, c_status data = Some s -> status article = s)
      /\ d_id d = uuid4
      /\ d_author d = user_name current_user
      /\ d_readTime d = read_time article
      /\ d_tags d = c_tags data
      /\ d_status d = status article.
Proof.
  intros Htags Hkeys words. unfold create_article.
  set (article := {| id := uuid4; title := c_title data;
                     content := c_content data; excerpt := c_excerpt data;
                     category := c_category data;
                     author := user_name current_user; published_at := now;
                     read_time := read_time_label (c_content data);
                     image_url := c_image_url data;
                     tags := Json.dumps (c_tags data);
                     status := match c_status data with
                               | Some s => s
                               | None => published
                               end |}).
  destruct (existsb (fun a => PyStr.eqb (id a) uuid4) session) eqn:E.
  - unfold insert. cbn [id article]. rewrite E. reflexivity.
  - assert (Hins : insert article session = Ok (session ++ [article])).
    { unfold insert. cbn [id article]. rewrite E. reflexivity. }
    rewrite Hins.
    assert (Hd : exists d, article_dict article = Ok d
                           /\ d_id d = uuid4
                           /\ d_author d = user_name current_user
                           /\ d_readTime d = read_time article
                           /\ d_tags d = c_tags data
                           /\ d_status d = status article).
    { unfold article_dict. cbn [tags article].
      rewrite (JsonFacts.loads_dumps _ Htags).
      eexists. repeat split. }
    destruct Hd as [d [Ed [D1 [D2 [D3 [D4 D5]]]]]].
    exists article, d. rewrite Ed.
    split; [reflexivity |]. split; [reflexivity |].
    split; [apply CreateFacts.existsb_id_false; assumption |].
    split; [apply (CreateFacts.insert_keeps_keys_distinct article session);
            assumption |].
    split; [reflexivity |]. split; [reflexivity |].
    split; [apply N.le_add_l |].
    split.
    { cbn [status article]. unfold CreateArticleData_status_default.
      intros [-> | ->]; reflexivity. }
    split.
    { cbn [status article]. intros s ->. reflexivity. }
    repeat (split; [assumption |]). assumption.
Qed.

Lemma create_article_record_witness :
  exists article d,
    create_article (py "uuid-c") 7%Z new_article_data articles2 admin
    = (articles2 ++ [article], Ok d)
    /\ id article = py "uuid-c"
    /\ author article = py "Admin"
    /\ read_time article = py "1 min"
    /\ status article = published
    /\ d_tags d = [py "a"; py "b,c"].
Proof.
  assert (Htext : Forall text (c_tags new_article_data)).
  { repeat constructor; unfold scalar; lia. }
  assert (Hkeys : NoDup (map id articles2)).
  { repeat constructor; cbn; intuition discriminate. }
  pose proof (create_article_record (py "uuid-c") 7%Z new_article_data
                articles2 admin Htext Hkeys) as H.
  cbv zeta in H.
  change (existsb (fun a => PyStr.eqb (id a) (py "uuid-c")) articles2)
    with false in H. cbv iota in H.
  destruct H as (a & d & E & Hid & _ & _ & Hau & Hrt & _ & Hst & _ & _ & _ & _
                & Htg & _).
  exists a, d. split; [exact E |]. split; [exact Hid |].
  split; [exact Hau |]. split; [exact Hrt |].
  split; [exact (Hst (or_introl eq_refl)) | exact Htg].
Defined.

(** C8: for every list of tag strings made of Unicode scalar values, which
    covers every printable string and the delimiters of JSON,
    [json.loads(json.dumps(tags))] is [tags]; so an article stored with
    [json.dumps(tags)] is answered with exactly [tags]. *)
Theorem tags_round_trip (tag_list : list str) :
  Forall text tag_list ->
  Json.loads (Json.dumps tag_list) = Some tag_list
  /\ forall article,
       tags article = Json.dumps tag_list ->
       exists d, article_dict article = Ok d /\ d_tags d = tag_list.
Proof.
  intros Htext.
  assert (Hloads : Json.loads (Json.dumps tag_list) = Some tag_list)
    by (apply JsonFacts.loads_dumps; exact Htext).
  split; [exact Hloads |].
  intros article Etags. unfold article_dict. rewrite Etags, Hloads.
  eexists. split; reflexivity.
Qed.

Lemma tags_round_trip_witness :
  Json.loads (Json.dumps [py "a"; py "b,c"]) = Some [py "a"; py "b,c"].
Proof.
  apply (tags_round_trip [py "a"; py "b,c"]).
  repeat constructor; unfold scalar; lia.
Defined.

Example delimiters_survive_dumps_loads :
  Json.dumps [py "a"; py "b,c"]
  = [91; 34; 97; 34; 44; 32; 34; 98; 44; 99; 34; 93]
  /\ Json.loads (Json.dumps [[34; 44; 32; 92; 93]; [128512; 233; 10]])
     = Some [[34; 44; 32; 92; 93]; [128512; 233; 10]].
Proof. split; reflexivity. Qed.

Section HashVerify.

Variable bcrypt_digest : list N -> str -> str.
Hypothesis digest_length :
  forall key salt, List.length (bcrypt_digest key salt) = 31%nat.

(** C9 (amended): for passwords the handler accepts and every 22-character
    salt, [verify(p, hash(p))] is true; another salt gives another hash
    string, which verifies too; and [verify(p, hash(p2))] compares the bcrypt
    digests of the first 72 bytes of [p] and [p2] under the salt of the
    hash, so it is true whenever [p] and [p2] agree on their first 72
    bytes. *)
Theorem verify_password_truncates (salt p p2 : str) (secret secret2 : list N) :
  List.length salt = 22%nat ->
  norm_secret p = Ok secret ->
  norm_secret p2 = Ok secret2 ->
  exists h h2,
    hash_password bcrypt_digest salt p = Ok h
    /\ hash_password bcrypt_digest salt p2 = Ok h2
    /\ verify_password bcrypt_digest p h = Ok true
    /\ (forall salt', List.length salt' = 22%nat -> salt' <> salt ->
          exists h', hash_password bcrypt_digest salt' p = Ok h'
                     /\ h' <> h
                     /\ verify_password bcrypt_digest p h' = Ok true)
    /\ verify_password bcrypt_digest p h2
       = Ok (PyStr.eqb (bcrypt_digest (firstn 72 secret) salt)
                       (bcrypt_digest (firstn 72 secret2) salt))
    /\ (firstn 72 secret = firstn 72 secret2 ->
        verify_password bcrypt_digest p h2 = Ok true).
Proof.
  intros Hs Hn Hn2.
  exists (bcrypt_config ++ salt ++ bcrypt_digest (firstn 72 secret) salt),
         (bcrypt_config ++ salt ++ bcrypt_digest (firstn 72 secret2) salt).
  split; [apply PasslibFacts.hash_password_ok; assumption |].
  split; [apply PasslibFacts.hash_password_ok; assumption |].
  split.
  { rewrite (PasslibFacts.verify_password_built bcrypt_digest digest_length
               salt _ p secret Hs (digest_length _ _) Hn).
    rewrite eqb_refl. reflexivity. }
  split.
  { intros salt' Hs' Hne.
    exists (bcrypt_config ++ salt' ++ bcrypt_digest (firstn 72 secret) salt').
    split; [apply PasslibFacts.hash_password_ok; assumption |]. split.
    - intros E. apply app_inv_head in E.
      apply (f_equal (firstn 22)) in E.
      rewrite <- Hs' in E at 1. rewrite PasslibFacts.firstn_exact in E.
      rewrite <- Hs in E. rewrite PasslibFacts.firstn_exact in E.
      contradiction.
    - rewrite (PasslibFacts.verify_password_built bcrypt_digest digest_length
                 salt' _ p secret Hs' (digest_length _ _) Hn).
      rewrite eqb_refl. reflexivity. }
  split.
  { apply (PasslibFacts.verify_password_built bcrypt_digest digest_length
             salt _ p secret Hs (digest_length _ _) Hn). }
  intros E.
  rewrite (PasslibFacts.verify_password_built bcrypt_digest digest_length
             salt _ p secret Hs (digest_length _ _) Hn).
  rewrite E, eqb_refl. reflexivity.
Qed.

End HashVerify.

Lemma verify_password_truncates_witness :
  exists h h' h2,
    hash_password sample_digest sample_salt (py "admin123") = Ok h
    /\ hash_password sample_digest other_salt (py "admin123") = Ok h'
    /\ h' <> h
    /\ verify_password sample_digest (py "admin123") h = Ok true
    /\ verify_password sample_digest (py "admin123") h' = Ok true
    /\ hash_password sample_digest sample_salt (py "wrong") = Ok h2
    /\ verify_password sample_digest (py "admin123") h2 = Ok false.
Proof.
  destruct (verify_password_truncates sample_digest
              PasslibFacts.sample_digest_length sample_salt
              (py "admin123") (py "wrong") (py "admin123") (py "wrong")
              eq_refl eq_refl eq_refl)
    as (h & h2 & Eh & Eh2 & Hv & Hsalt & Hcmp & _).
  destruct (Hsalt other_salt eq_refl) as (h' & Eh' & Hne & Hv');
    [discriminate |].
  exists h, h', h2. repeat (split; [assumption |]).
  rewrite Hcmp. reflexivity.
Defined.

(** C9 as stated fails: two different passwords of 73 bytes that share
    their first 72 bytes verify against each other's hash. *)
Lemma verify_password_accepts_other_password :
  long_x <> long_y
  /\ (exists h2,
        hash_password sample_digest sample_salt long_y = Ok h2
        /\ verify_password sample_digest long_x h2 = Ok true)
  /\ ~ Spec.hash_verify sample_digest sample_salt long_x long_y
  /\ (forall bcrypt_digest : list N -> str -> str,
        (forall key salt, List.length (bcrypt_digest key salt) = 31%nat) ->
        ~ Spec.hash_verify bcrypt_digest sample_salt long_x long_y).
Proof.
  assert (Hne : long_x <> long_y) by discriminate.
  split; [exact Hne |].
  assert (Hall : forall bcrypt_digest : list N -> str -> str,
            (forall key salt, List.length (bcrypt_digest key salt) = 31%nat) ->
            ~ Spec.hash_verify bcrypt_digest sample_salt long_x long_y).
  { intros bcrypt_digest Hlen (h & h2 & _ & E2 & _ & Hrej).
    specialize (Hrej Hne).
    rewrite (PasslibFacts.hash_password_ok bcrypt_digest Hlen sample_salt
               long_y (repeat 97 72 ++ [121]) eq_refl) in E2.
    assert (Eh2 : h2 = bcrypt_config ++ sample_salt
                       ++ bcrypt_digest (firstn 72 (repeat 97 72 ++ [121]))
                            sample_salt) by congruence.
    rewrite Eh2 in Hrej. clear E2 Eh2.
    rewrite (PasslibFacts.verify_password_built bcrypt_digest Hlen
               sample_salt _ long_x (repeat 97 72 ++ [120])
               eq_refl (Hlen _ _) eq_refl) in Hrej.
    change (firstn 72 (repeat 97 72 ++ [120])) with (repeat 97 72) in Hrej.
    change (firstn 72 (repeat 97 72 ++ [121])) with (repeat 97 72) in Hrej.
    rewrite eqb_refl in Hrej. discriminate. }
  split; [eexists; split; reflexivity |].
  split; [| exact Hall].
  apply Hall. apply PasslibFacts.sample_digest_length.
Qed.

(** * Further properties of the handlers *)

Module LookupFacts.

Lemma find_id_none (k : str) (session : list Article) :
  find (fun a => PyStr.eqb (id a) k) session = None
  <-> ~ In k (map id session).
Proof.
  induction session as [| a session IH]; cbn [find map In]; [tauto |].
  destruct (PyStr.eqb (id a) k) eqn:E.
  - apply eqb_eq in E. split; [discriminate | tauto].
  - assert (id a <> k) by (intros H; apply eqb_eq in H; congruence).
    rewrite IH. tauto.
Qed.

Lemma find_id_some (k : str) (session : list Article) (a : Article) :
  find (fun b => PyStr.eqb (id b) k) session = Some a ->
  In a session /\ id a = k.
Proof.
  intros H. apply find_some in H. rewrite eqb_eq in H. exact H.
Qed.

Lemma find_id_in (k : str) (session : list Article) :
  In k (map id session) ->
  exists a, find (fun b => PyStr.eqb (id b) k) session = Some a.
Proof.
  intros Hin.
  destruct (find (fun b => PyStr.eqb (id b) k) session) as [a |] eqn:E;
    [exists a; reflexivity |].
  apply find_id_none in E. contradiction.
Qed.

Lemma find_user_unique (session : list User) (u : User) :
  NoDup (map user_id session) -> In u session ->
  find (fun v => PyStr.eqb (user_id v) (user_id u)) session = Some u.
Proof.
  induction session as [| v session IH]; cbn [map In find]; [tauto |].
  intros Hnd Hin. inversion Hnd as [| ? ? Hnotin Hnd']; subst.
  destruct (PyStr.eqb (user_id v) (user_id u)) eqn:E.
  - apply eqb_eq in E. destruct Hin as [-> | Hin]; [reflexivity |].
    exfalso. apply Hnotin. rewrite E. apply in_map. assumption.
  - destruct Hin as [-> | Hin]; [rewrite eqb_refl in E; discriminate |].
    apply IH; assumption.
Qed.

Lemma find_app_none {A : Type} (f : A -> bool) (l r : list A) :
  find f l = None -> find f (l ++ r) = find f r.
Proof.
  induction l as [| x l IH]; cbn [find app]; [reflexivity |].
  destruct (f x); [discriminate | exact IH].
Qed.

Lemma find_app_some {A : Type} (f : A -> bool) (l r : list A) (x : A) :
  find f l = Some x -> find f (l ++ r) = Some x.
Proof.
  induction l as [| y l IH]; cbn [find app]; [discriminate |].
  destruct (f y); [trivial | exact IH].
Qed.

End LookupFacts.

Module HashFacts.

(** What [hash_password] returns when it returns. *)
Lemma hash_password_inv (bcrypt_digest : list N -> str -> str)
  (salt password h : str) :
  hash_password bcrypt_digest salt password = Ok h ->
  exists secret,
    norm_secret password = Ok secret
    /\ List.length (bcrypt_digest (firstn 72 secret) salt) = 31%nat
    /\ h = bcrypt_config ++ salt ++ bcrypt_digest (firstn 72 secret) salt.
Proof.
  unfold hash_password, calc_checksum, bcrypt_hashpw.
  destruct (norm_secret password) as [secret | e]; [| discriminate].
  destruct (List.length (bcrypt_digest (firstn 72 secret) salt) =? 31)%nat
    eqn:E; [| discriminate].
  intros H. exists secret. apply Nat.eqb_eq in E.
  repeat split; [assumption | congruence].
Qed.

(** A hash made from a password verifies for that password. *)
Lemma verify_own_hash (bcrypt_digest : list N -> str -> str)
  (salt password h : str) :
  List.length salt = 22%nat ->
  hash_password bcrypt_digest salt password = Ok h ->
  verify_password bcrypt_digest password h = Ok true.
Proof.
  intros Hs Hh. apply hash_password_inv in Hh.
  destruct Hh as (secret & Hn & Hlen & ->).
  unfold verify_password, calc_checksum, bcrypt_hashpw.
  rewrite PasslibFacts.parse_hash_built by assumption.
  rewrite Hn, Hlen. cbn [Nat.eqb]. rewrite eqb_refl. reflexivity.
Qed.

(** What a successful [login] answers. *)
Lemma login_ok_inv (bcrypt_digest : list N -> str -> str)
  (jwt_encode : Payload -> str -> str -> str) (utcnow : datetime)
  (session : list User) (credentials : LoginCredentials) (r : AuthResponse) :
  login bcrypt_digest jwt_encode utcnow credentials session = Ok r ->
  exists u,
    find (fun v => PyStr.eqb (user_email v) (cred_email credentials)) session
    = Some u
    /\ verify_password bcrypt_digest (cred_password credentials)
         (password_hash u) = Ok true
    /\ token r
       = jwt_encode {| sub := Some (user_id u);
                       exp := Some (utcnow + 1800)%Z |}
                    SECRET_KEY ALGORITHM
    /\ user r = get_me u.
Proof.
  unfold login, authenticate_user.
  destruct (find _ session) as [u |] eqn:Ef; [| discriminate].
  destruct (verify_password bcrypt_digest (cred_password credentials)
              (password_hash u)) as [[|] | e] eqn:Ev; try discriminate.
  intros H. injection H as <-. exists u.
  split; [reflexivity |]. split; [exact Ev |]. split; reflexivity.
Qed.

End HashFacts.

Section HashedLogin.

Variable bcrypt_digest : list N -> str -> str.
Variable jwt_encode : Payload -> str -> str -> str.

(** X3: a user whose stored hash was made by [hash_password] from a
    password is authenticated by [authenticate_user] with that password, and
    [login] then answers that user's fields. *)
Theorem login_accepts_hashed_password (utcnow : datetime)
  (session : list User) (u : User) (salt email password : str) :
  List.length salt = 22%nat ->
  find (fun v => PyStr.eqb (user_email v) email) session = Some u ->
  hash_password bcrypt_digest salt password = Ok (password_hash u) ->
  authenticate_user bcrypt_digest session email password = Ok (ReturnUser u)
  /\ exists r,
       login bcrypt_digest jwt_encode utcnow
         {| cred_email := email; cred_password := password |} session = Ok r
       /\ user r = get_me u.
Proof.
  intros Hs Hfind Hh.
  pose proof (HashFacts.verify_own_hash bcrypt_digest salt password
                (password_hash u) Hs Hh) as Hv.
  split.
  - unfold authenticate_user. rewrite Hfind, Hv. reflexivity.
  - unfold login, authenticate_user. cbn [cred_email cred_password].
    rewrite Hfind, Hv. eexists. split; reflexivity.
Qed.

End HashedLogin.

Lemma login_accepts_hashed_password_witness :
  exists r,
    login sample_digest sample_jwt_encode 0%Z
      {| cred_email := py "admin@example.com";
         cred_password := py "admin123" |} users = Ok r
    /\ user r = get_me admin.
Proof.
  destruct (login_accepts_hashed_password sample_digest sample_jwt_encode
              0%Z users admin sample_salt (py "admin@example.com")
              (py "admin123") eq_refl eq_refl eq_refl) as [_ H].
  exact H.
Defined.

Section TokenRoundTrip.

Variable bcrypt_digest : list N -> str -> str.
Variable jwt_encode : Payload -> str -> str -> str.
Variable jwt_decode : str -> str -> list str -> decoded.

(** X4: when user ids are distinct and python-jose decodes a token it has
    just encoded to claims with the same subject, the token that [login]
    returns is resolved by [get_current_user] to the user who logged in, and
    [get_me] answers the same user fields as [login] did. *)
Theorem login_token_resolves_user (utcnow : datetime)
  (session : list User) (credentials : LoginCredentials) (r : AuthResponse) :
  NoDup (map user_id session) ->
  (forall uid, In uid (map user_id session) ->
     exists p,
       jwt_decode
         (jwt_encode {| sub := Some uid; exp := Some (utcnow + 1800)%Z |}
                     SECRET_KEY ALGORITHM)
         SECRET_KEY [ALGORITHM] = Claims p
       /\ sub p = Some uid) ->
  login bcrypt_digest jwt_encode utcnow credentials session = Ok r ->
  exists u,
    get_current_user jwt_decode (token r) session = Ok u
    /\ In u session
    /\ user_email u = cred_email credentials
    /\ get_me u = user r.
Proof.
  intros Hnd Hjose Hlogin.
  apply HashFacts.login_ok_inv in Hlogin.
  destruct Hlogin as (u & Hfind & _ & Htok & Huser).
  apply find_some in Hfind. destruct Hfind as [Hin Hmail].
  apply eqb_eq in Hmail.
  destruct (Hjose (user_id u) (in_map user_id session u Hin))
    as (p & Hdec & Hsub).
  exists u. unfold get_current_user. rewrite Htok, Hdec, Hsub.
  rewrite (LookupFacts.find_user_unique session u Hnd Hin).
  repeat split; [assumption | assumption | congruence].
Qed.

End TokenRoundTrip.

Lemma login_token_resolves_user_witness :
  exists r,
    login sample_digest sample_jwt_encode 0%Z
      {| cred_email := py "admin@example.com";
         cred_password := py "admin123" |} users = Ok r
    /\ get_current_user sample_jwt_decode (token r) users = Ok admin.
Proof.
  eexists. split; [reflexivity |].
  assert (Hnd : NoDup (map user_id users))
    by (repeat constructor; intros []).
  assert (Hjose : forall uid, In uid (map user_id users) ->
            exists p,
              sample_jwt_decode
                (sample_jwt_encode
                   {| sub := Some uid; exp := Some (0 + 1800)%Z |}
                   SECRET_KEY ALGORITHM)
                SECRET_KEY [ALGORITHM] = Claims p
              /\ sub p = Some uid).
  { intros uid [<- | []]. eexists. split; reflexivity. }
  destruct (login_token_resolves_user sample_digest sample_jwt_encode
              sample_jwt_decode 0%Z users
              {| cred_email := py "admin@example.com";
                 cred_password := py "admin123" |} _ Hnd Hjose eq_refl)
    as (u & Hu & Hin & _ & _).
  destruct Hin as [<- | []]. exact Hu.
Defined.

Module StartupFacts.

Lemma admin_secret :
  norm_secret (py "admin123") = Ok (py "admin123").
Proof. reflexivity. Qed.

Lemma hash_admin_ok (bcrypt_digest : list N -> str -> str) (salt : str) :
  (forall key s, List.length (bcrypt_digest key s) = 31%nat) ->
  hash_password bcrypt_digest salt (py "admin123")
  = Ok (bcrypt_config ++ salt ++ bcrypt_digest (py "admin123") salt).
Proof.
  intros Hlen.
  rewrite (PasslibFacts.hash_password_ok bcrypt_digest Hlen salt
             (py "admin123") (py "admin123") admin_secret).
  reflexivity.
Qed.

(** A second run of [create_default_user] finds the admin and adds nothing. *)
Lemma create_default_user_again (bcrypt_digest : list N -> str -> str)
  (uuid4 salt uuid4' salt' : str) (users users' : list User) :
  Database.create_default_user bcrypt_digest uuid4 salt users = Ok users' ->
  Database.create_default_user bcrypt_digest uuid4' salt' users' = Ok users'.
Proof.
  unfold Database.create_default_user at 1.
  destruct (find (fun u => PyStr.eqb (user_email u) (py "admin@example.com"))
              users) as [v |] eqn:Ef.
  - intros H. injection H as <-.
    unfold Database.create_default_user. rewrite Ef. reflexivity.
  - destruct (hash_password bcrypt_digest salt (py "admin123")) as [h | e];
      [| discriminate].
    destruct (existsb (fun u => PyStr.eqb (user_id u) uuid4) users);
      [discriminate |].
    intros H. injection H as <-.
    unfold Database.create_default_user.
    rewrite (LookupFacts.find_app_none _ _ _ Ef). reflexivity.
Qed.

Lemma create_sample_articles_again (uuid_a uuid_b uuid_c uuid_d : str)
  (now_a now_b now_c now_d : datetime) (articles articles' : list Article) :
  Database.create_sample_articles uuid_a uuid_b now_a now_b articles
  = Ok articles' ->
  Database.create_sample_articles uuid_c uuid_d now_c now_d articles'
  = Ok articles'.
Proof.
  unfold Database.create_sample_articles at 1.
  destruct articles as [| a articles].
  - destruct (PyStr.eqb uuid_a uuid_b); [discriminate |].
    intros H. injection H as <-. reflexivity.
  - intros H. injection H as <-. reflexivity.
Qed.

End StartupFacts.

Section DefaultUser.

Variable bcrypt_digest : list N -> str -> str.

(** X5: when [create_default_user] returns, a user with the admin's email
    exists, the users stored before are all kept in place with at most one
    user appended, nothing is added if the email was already taken, and a
    second run changes nothing. *)
Theorem create_default_user_once (uuid4 salt uuid4' salt' : str)
  (users users' : list User) :
  Database.create_default_user bcrypt_digest uuid4 salt users = Ok users' ->
  (exists u, In u users' /\ user_email u = py "admin@example.com")
  /\ (exists added, users' = users ++ added /\ (List.length added <= 1)%nat)
  /\ ((exists u, In u users /\ user_email u = py "admin@example.com") ->
      users' = users)
  /\ Database.create_default_user bcrypt_digest uuid4' salt' users'
     = Ok users'.
Proof.
  unfold Database.create_default_user at 1.
  destruct (find (fun u => PyStr.eqb (user_email u) (py "admin@example.com"))
              users) as [v |] eqn:Ef.
  - intros H. injection H as <-.
    pose proof Ef as Ef'. apply find_some in Ef'.
    destruct Ef' as [Hin Hmail]. apply eqb_eq in Hmail.
    split; [exists v; auto |].
    split; [exists []; rewrite app_nil_r; auto |].
    split; [reflexivity |].
    unfold Database.create_default_user. rewrite Ef. reflexivity.
  - destruct (hash_password bcrypt_digest salt (py "admin123")) as [h | e];
      [| discriminate].
    destruct (existsb (fun u => PyStr.eqb (user_id u) uuid4) users);
      [discriminate |].
    intros H. injection H as <-.
    split.
    { exists (Database.default_user uuid4 h). split; [| reflexivity].
      apply in_or_app. right. left. reflexivity. }
    split; [eexists; split; [reflexivity | apply Nat.le_refl] |].
    split.
    { intros (u & Hin & Hmail).
      apply (find_none _ _ Ef) in Hin. rewrite Hmail, eqb_refl in Hin.
      discriminate. }
    unfold Database.create_default_user.
    rewrite (LookupFacts.find_app_none _ _ _ Ef). reflexivity.
Qed.

End DefaultUser.

Lemma create_default_user_once_witness :
  exists users',
    Database.create_default_user sample_digest (py "uuid-admin") sample_salt []
    = Ok users'
    /\ Database.create_default_user sample_digest (py "uuid-other") other_salt
         users' = Ok users'.
Proof.
  eexists. split; [reflexivity |].
  apply (create_default_user_once sample_digest (py "uuid-admin") sample_salt
           (py "uuid-other") other_salt [] _ eq_refl).
Defined.

(** X6: when [create_sample_articles] returns, the table is not empty; a
    table that already had rows is left as it was; an empty table receives
    exactly the market and the regulation sample, with the two distinct ids
    drawn and tags that can be read back; distinct ids stay distinct; and a
    second run changes nothing. *)
Theorem create_sample_articles_seeds_once (uuid_a uuid_b : str)
  (now_a now_b : datetime) (articles articles' : list Article) :
  Database.create_sample_articles uuid_a uuid_b now_a now_b articles
  = Ok articles' ->
  articles' <> []
  /\ (articles <> [] -> articles' = articles)
  /\ (articles = [] ->
      map id articles' = [uuid_a; uuid_b]
      /\ uuid_a <> uuid_b
      /\ map Models.category articles' = [market; regulation]
      /\ forallb decodable articles' = true)
  /\ (NoDup (map id articles) -> NoDup (map id articles'))
  /\ (forall uuid_c uuid_d now_c now_d,
        Database.create_sample_articles uuid_c uuid_d now_c now_d articles'
        = Ok articles').
Proof.
  intros H.
  assert (Hagain := fun c d nc nd =>
            StartupFacts.create_sample_articles_again uuid_a uuid_b c d
              now_a now_b nc nd articles articles' H).
  unfold Database.create_sample_articles in H.
  destruct articles as [| a articles].
  - destruct (PyStr.eqb uuid_a uuid_b) eqn:E; [discriminate |].
    injection H as <-.
    assert (Hne : uuid_a <> uuid_b)
      by (intros Heq; apply eqb_eq in Heq; congruence).
    split; [discriminate |].
    split; [intros Hc; contradiction Hc; reflexivity |].
    split; [intros _; repeat split; assumption |].
    split; [| exact Hagain].
    intros _. cbn [map id Database.bitcoin_article Database.defi_article].
    constructor; [intros [Hc | []]; congruence |].
    constructor; [intros [] | constructor].
  - injection H as <-.
    split; [discriminate |]. split; [reflexivity |].
    split; [discriminate |]. split; [trivial | exact Hagain].
Qed.

Lemma create_sample_articles_seeds_once_witness :
  exists articles',
    Database.create_sample_articles (py "uuid-a") (py "uuid-b") 0%Z 1%Z []
    = Ok articles'
    /\ map id articles' = [py "uuid-a"; py "uuid-b"]
    /\ Database.create_sample_articles (py "uuid-c") (py "uuid-d") 2%Z 3%Z
         articles' = Ok articles'.
Proof.
  eexists. split; [reflexivity |].
  destruct (create_sample_articles_seeds_once (py "uuid-a") (py "uuid-b")
              0%Z 1%Z [] _ eq_refl) as (_ & _ & Hseed & _ & Hagain).
  split; [apply (Hseed eq_refl) | apply Hagain].
Defined.

Section StartupLogin.

Variable bcrypt_digest : list N -> str -> str.
Variable jwt_encode : Payload -> str -> str -> str.
Hypothesis digest_length :
  forall key salt, List.length (bcrypt_digest key salt) = 31%nat.

(** X7: after [on_startup] on tables without an admin, with a fresh user
    id, the admin can log in with the password [admin123] and is answered
    with the name Admin and the role admin. *)
Theorem startup_admin_can_login (uuid_user salt uuid_a uuid_b : str)
  (now_a now_b utcnow : datetime) (users : list User)
  (articles : list Article) :
  List.length salt = 22%nat ->
  find (fun u => PyStr.eqb (user_email u) (py "admin@example.com")) users
  = None ->
  existsb (fun u => PyStr.eqb (user_id u) uuid_user) users = false ->
  articles <> [] \/ uuid_a <> uuid_b ->
  exists users' articles' r,
    Startup.on_startup bcrypt_digest uuid_user salt uuid_a uuid_b now_a now_b
      (users, articles)
    = ((users', articles'), Ok tt)
    /\ login bcrypt_digest jwt_encode utcnow
         {| cred_email := py "admin@example.com";
            cred_password := py "admin123" |} users'
       = Ok r
    /\ user r = {| ud_id := uuid_user; ud_name := py "Admin";
                   ud_email := py "admin@example.com";
                   ud_role := Some (py "admin") |}.
Proof.
  intros Hs Hnone Hfresh Hart.
  pose proof (StartupFacts.hash_admin_ok bcrypt_digest salt digest_length)
    as Hh.
  set (h := bcrypt_config ++ salt ++ bcrypt_digest (py "admin123") salt) in *.
  assert (Hdef : Database.create_default_user bcrypt_digest uuid_user salt
                   users
                 = Ok (users ++ [Database.default_user uuid_user h])).
  { unfold Database.create_default_user. rewrite Hnone, Hh, Hfresh.
    reflexivity. }
  assert (Hsamp : exists articles',
            Database.create_sample_articles uuid_a uuid_b now_a now_b articles
            = Ok articles').
  { unfold Database.create_sample_articles.
    destruct articles as [| a l]; [| eexists; reflexivity].
    destruct Hart as [Hc | Hne]; [contradiction Hc; reflexivity |].
    destruct (PyStr.eqb uuid_a uuid_b) eqn:E;
      [apply eqb_eq in E; contradiction | eexists; reflexivity]. }
  destruct Hsamp as [articles' Hsamp].
  exists (users ++ [Database.default_user uuid_user h]), articles'.
  assert (Hfind :
    find (fun u => PyStr.eqb (user_email u) (py "admin@example.com"))
         (users ++ [Database.default_user uuid_user h])
    = Some (Database.default_user uuid_user h)).
  { rewrite (LookupFacts.find_app_none _ _ _ Hnone). reflexivity. }
  assert (Hv : verify_password bcrypt_digest (py "admin123")
                 (password_hash (Database.default_user uuid_user h))
               = Ok true).
  { apply (HashFacts.verify_own_hash bcrypt_digest salt); assumption. }
  eexists. split.
  { unfold Startup.on_startup. cbn [fst snd]. rewrite Hdef, Hsamp.
    reflexivity. }
  unfold login, authenticate_user. cbn [cred_email cred_password].
  rewrite Hfind, Hv. split; reflexivity.
Qed.

End StartupLogin.

Lemma startup_admin_can_login_witness :
  exists users' articles' r,
    Startup.on_startup sample_digest (py "uuid-admin") sample_salt
      (py "uuid-a") (py "uuid-b") 0%Z 1%Z ([], [])
    = ((users', articles'), Ok tt)
    /\ login sample_digest sample_jwt_encode 5%Z
         {| cred_email := py "admin@example.com";
            cred_password := py "admin123" |} users'
       = Ok r
    /\ user r = {| ud_id := py "uuid-admin"; ud_name := py "Admin";
                   ud_email := py "admin@example.com";
                   ud_role := Some (py "admin") |}.
Proof.
  apply (startup_admin_can_login sample_digest sample_jwt_encode
           PasslibFacts.sample_digest_length (py "uuid-admin") sample_salt
           (py "uuid-a") (py "uuid-b") 0%Z 1%Z 5%Z [] []
           eq_refl eq_refl eq_refl).
  right. discriminate.
Defined.

(** X8: [on_startup] run again on the tables it has left, with any new
    random draws and clock readings, succeeds and changes nothing. *)
Theorem on_startup_again (bcrypt_digest : list N -> str -> str)
  (uuid_user salt uuid_a uuid_b : str) (now_a now_b : datetime)
  (uuid_user' salt' uuid_a' uuid_b' : str) (now_a' now_b' : datetime)
  (d d' : Startup.db) :
  Startup.on_startup bcrypt_digest uuid_user salt uuid_a uuid_b now_a now_b d
  = (d', Ok tt) ->
  Startup.on_startup bcrypt_digest uuid_user' salt' uuid_a' uuid_b'
    now_a' now_b' d'
  = (d', Ok tt).
Proof.
  unfold Startup.on_startup at 1.
  destruct (Database.create_default_user bcrypt_digest uuid_user salt (fst d))
    as [users | e] eqn:Eu; [| discriminate].
  destruct (Database.create_sample_articles uuid_a uuid_b now_a now_b (snd d))
    as [articles | e] eqn:Ea; [| discriminate].
  intros H. injection H as <-.
  unfold Startup.on_startup. cbn [fst snd].
  rewrite (StartupFacts.create_default_user_again _ _ _ uuid_user' salt'
             _ _ Eu).
  rewrite (StartupFacts.create_sample_articles_again _ _ uuid_a' uuid_b'
             _ _ now_a' now_b' _ _ Ea).
  reflexivity.
Qed.

Lemma on_startup_again_witness :
  exists d',
    Startup.on_startup sample_digest (py "uuid-admin") sample_salt
      (py "uuid-a") (py "uuid-b") 0%Z 1%Z ([], []) = (d', Ok tt)
    /\ Startup.on_startup sample_digest (py "uuid-x") other_salt
         (py "uuid-y") (py "uuid-z") 7%Z 8%Z d' = (d', Ok tt).
Proof.
  eexists. split; [reflexivity |].
  apply (on_startup_again sample_digest (py "uuid-admin") sample_salt
           (py "uuid-a") (py "uuid-b") 0%Z 1%Z (py "uuid-x") other_salt
           (py "uuid-y") (py "uuid-z") 7%Z 8%Z ([], []) _ eq_refl).
Defined.

Module TableFacts.

Lemma eqb_neq (a b : str) : PyStr.eqb a b = false <-> a <> b.
Proof.
  split.
  - intros H E. apply eqb_eq in E. congruence.
  - intros H. destruct (PyStr.eqb a b) eqn:E; [| reflexivity].
    apply eqb_eq in E. contradiction.
Qed.

Lemma store_ids (a : Article) (session : list Article) :
  map id (store a session) = map id session.
Proof.
  induction session as [| b session IH]; [reflexivity |].
  cbn [store]. destruct (PyStr.eqb (id b) (id a)) eqn:E; cbn [map].
  - apply eqb_eq in E. congruence.
  - rewrite IH. reflexivity.
Qed.

(** Reading back the row that [store] wrote. *)
Lemma find_store_same (a : Article) (session : list Article) :
  In (id a) (map id session) ->
  find (fun b => PyStr.eqb (id b) (id a)) (store a session) = Some a.
Proof.
  induction session as [| b session IH]; cbn [map In store]; [tauto |].
  intros Hin. destruct (PyStr.eqb (id b) (id a)) eqn:E.
  - cbn [find]. rewrite eqb_refl. reflexivity.
  - cbn [find]. rewrite E. apply IH. destruct Hin as [Hin | Hin];
      [apply eqb_neq in E; contradiction | assumption].
Qed.

Lemma find_store_other (a : Article) (k : str) (session : list Article) :
  k <> id a ->
  find (fun b => PyStr.eqb (id b) k) (store a session)
  = find (fun b => PyStr.eqb (id b) k) session.
Proof.
  intros Hk. induction session as [| b session IH]; [reflexivity |].
  cbn [store]. destruct (PyStr.eqb (id b) (id a)) eqn:E; cbn [find].
  - apply eqb_eq in E.
    assert (Hb : PyStr.eqb (id b) k = false)
      by (apply eqb_neq; congruence).
    assert (Ha : PyStr.eqb (id a) k = false)
      by (apply eqb_neq; congruence).
    rewrite Hb, Ha. reflexivity.
  - destruct (PyStr.eqb (id b) k); [reflexivity | exact IH].
Qed.

(** Writing back a row as it is stored changes nothing. *)
Lemma store_found (a : Article) (session : list Article) :
  find (fun b => PyStr.eqb (id b) (id a)) session = Some a ->
  store a session = session.
Proof.
  induction session as [| b session IH]; [reflexivity |].
  cbn [find store]. destruct (PyStr.eqb (id b) (id a)).
  - intros H. injection H as ->. reflexivity.
  - intros H. rewrite IH by assumption. reflexivity.
Qed.

Lemma store_store (a a' : Article) (session : list Article) :
  id a' = id a -> store a' (store a session) = store a' session.
Proof.
  intros Hid. induction session as [| b session IH]; [reflexivity |].
  cbn [store]. rewrite Hid.
  destruct (PyStr.eqb (id b) (id a)) eqn:E; cbn [store]; rewrite Hid.
  - rewrite eqb_refl. reflexivity.
  - rewrite E. f_equal. exact IH.
Qed.

Lemma find_delete_other (a : Article) (k : str) (session : list Article) :
  k <> id a ->
  find (fun b => PyStr.eqb (id b) k) (delete a session)
  = find (fun b => PyStr.eqb (id b) k) session.
Proof.
  intros Hk. induction session as [| b session IH]; [reflexivity |].
  cbn [delete]. destruct (PyStr.eqb (id b) (id a)) eqn:E; cbn [find].
  - apply eqb_eq in E.
    assert (Hb : PyStr.eqb (id b) k = false)
      by (apply eqb_neq; congruence).
    rewrite Hb. reflexivity.
  - destruct (PyStr.eqb (id b) k); [reflexivity | exact IH].
Qed.

Lemma delete_incl (a : Article) (session : list Article) :
  incl (delete a session) session.
Proof.
  induction session as [| b session IH]; [apply incl_nil_l |].
  cbn [delete]. destruct (PyStr.eqb (id b) (id a)).
  - apply incl_tl, incl_refl.
  - apply incl_cons; [left; reflexivity | apply incl_tl, IH].
Qed.

Lemma delete_ids_incl (a : Article) (session : list Article) :
  incl (map id (delete a session)) (map id session).
Proof.
  intros k Hk. apply in_map_iff in Hk. destruct Hk as (b & <- & Hb).
  apply in_map. apply (delete_incl a session). assumption.
Qed.

Lemma delete_keys_distinct (a : Article) (session : list Article) :
  NoDup (map id session) ->
  NoDup (map id (delete a session)) /\ ~ In (id a) (map id (delete a session)).
Proof.
  induction session as [| b session IH]; cbn [map delete]; intros Hnd.
  - split; [constructor | intros []].
  - inversion Hnd as [| ? ? Hb Hnd']; subst.
    destruct (PyStr.eqb (id b) (id a)) eqn:E.
    + apply eqb_eq in E. split; [assumption | congruence].
    + destruct (IH Hnd') as [IH1 IH2]. cbn [map]. split.
      * constructor; [| assumption].
        intros Hin. apply Hb. apply (delete_ids_incl a session). assumption.
      * intros [Hin | Hin]; [apply eqb_neq in E; contradiction | auto].
Qed.

Lemma delete_length (a : Article) (session : list Article) :
  In (id a) (map id session) ->
  S (List.length (delete a session)) = List.length session.
Proof.
  induction session as [| b session IH]; cbn [map In delete]; [tauto |].
  intros Hin. destruct (PyStr.eqb (id b) (id a)) eqn:E; [reflexivity |].
  cbn [List.length]. rewrite IH; [reflexivity |].
  destruct Hin as [Hin | Hin]; [apply eqb_neq in E; contradiction | auto].
Qed.

(** Deleting the row that was appended last gives the table back. *)
Lemma delete_appended (a : Article) (session : list Article) :
  ~ In (id a) (map id session) -> delete a (session ++ [a]) = session.
Proof.
  induction session as [| b session IH]; cbn [map In app delete]; intros Hn.
  - rewrite eqb_refl. reflexivity.
  - assert (E : PyStr.eqb (id b) (id a) = false)
      by (apply eqb_neq; intros H; apply Hn; left; assumption).
    rewrite E, IH; [reflexivity | tauto].
Qed.

Lemma apply_update_twice (data : UpdateArticleData) (a : Article) :
  apply_update data (apply_update data a) = apply_update data a.
Proof.
  destruct data as [t c e g l u s].
  destruct t, c, e, g, l, u, s; reflexivity.
Qed.

Lemma apply_update_nothing (a : Article) :
  apply_update {| u_title := None; u_content := None; u_excerpt := None;
                  u_category := None; u_tags := None; u_image_url := None;
                  u_status := None |} a = a.
Proof. reflexivity. Qed.

Lemma apply_update_id (data : UpdateArticleData) (a : Article) :
  id (apply_update data a) = id a.
Proof. apply UpdateFacts.apply_update_fields. Qed.

End TableFacts.

(** X9: [get_article] answers 404 exactly when no stored article has the
    id; and whatever it returns is the dictionary of a stored article with
    that id. *)
Theorem get_article_not_found_iff (article_id : str)
  (session : list Article) :
  (get_article article_id session = Raise not_found
   <-> ~ In article_id (map id session))
  /\ (forall d, get_article article_id session = Ok d ->
        d_id d = article_id
        /\ exists a, In a session /\ id a = article_id
                     /\ article_dict a = Ok d).
Proof.
  unfold get_article.
  destruct (find (fun a => PyStr.eqb (id a) article_id) session)
    as [a |] eqn:Ef.
  - pose proof (LookupFacts.find_id_some _ _ _ Ef) as [Hin Hid].
    split.
    + split.
      * unfold article_dict.
        destruct (Json.loads (tags a)); discriminate.
      * intros Hn. exfalso. apply Hn. rewrite <- Hid. apply in_map.
        assumption.
    + intros d Hd. split; [| exists a; auto].
      unfold article_dict in Hd.
      destruct (Json.loads (tags a)); [| discriminate].
      injection Hd as <-. exact Hid.
  - split; [| discriminate].
    split; [intros _; apply LookupFacts.find_id_none; assumption
           | reflexivity].
Qed.

(** X10: after [create_article] with an id that was free, [get_article]
    on the new table with that id answers exactly what [create_article]
    answered. *)
Theorem create_then_get_article (uuid4 : str) (now : datetime)
  (data : CreateArticleData) (session : list Article) (current_user : User) :
  existsb (fun a => PyStr.eqb (id a) uuid4) session = false ->
  get_article uuid4
    (fst (create_article uuid4 now data session current_user))
  = snd (create_article uuid4 now data session current_user).
Proof.
  intros Hfresh. unfold create_article, insert. cbn [id].
  rewrite Hfresh. cbn [fst snd]. unfold get_article.
  assert (Hnone : find (fun a => PyStr.eqb (id a) uuid4) session = None).
  { apply LookupFacts.find_id_none.
    apply CreateFacts.existsb_id_false. assumption. }
  rewrite (LookupFacts.find_app_none _ _ _ Hnone). cbn [find id].
  rewrite eqb_refl. reflexivity.
Qed.

Lemma create_then_get_article_witness :
  exists d,
    snd (create_article (py "uuid-c") 7%Z new_article_data articles2 admin)
    = Ok d
    /\ get_article (py "uuid-c")
         (fst (create_article (py "uuid-c") 7%Z new_article_data articles2
                 admin))
       = Ok d
    /\ d_tags d = [py "a"; py "b,c"].
Proof.
  eexists. split; [reflexivity |]. split; [| reflexivity].
  apply (create_then_get_article (py "uuid-c") 7%Z new_article_data
           articles2 admin eq_refl).
Defined.

(** X11: [create_article] keeps every stored article in place (the table
    it leaves begins with the old table), and [get_article] for any other id
    answers as before. *)
Theorem create_keeps_stored_articles (uuid4 : str) (now : datetime)
  (data : CreateArticleData) (session : list Article) (current_user : User) :
  firstn (List.length session)
    (fst (create_article uuid4 now data session current_user)) = session
  /\ (forall k, k <> uuid4 ->
        get_article k
          (fst (create_article uuid4 now data session current_user))
        = get_article k session).
Proof.
  unfold create_article, insert. cbn [id].
  destruct (existsb (fun a => PyStr.eqb (id a) uuid4) session); cbn [fst].
  - split; [apply firstn_all | reflexivity].
  - split; [apply PasslibFacts.firstn_exact |].
    intros k Hk. unfold get_article.
    destruct (find (fun a => PyStr.eqb (id a) k) session) as [a |] eqn:Ef.
    + rewrite (LookupFacts.find_app_some _ _ _ _ Ef). reflexivity.
    + rewrite (LookupFacts.find_app_none _ _ _ Ef). cbn [find id].
      assert (E : PyStr.eqb uuid4 k = false)
        by (apply TableFacts.eqb_neq; congruence).
      rewrite E. reflexivity.
Qed.

(** X12: for an id that no stored article has, [update_article],
    [delete_article] and [get_article] all answer 404 "Article not found",
    and the two mutations leave the table as it was. *)
Theorem update_delete_unknown_id (article_id : str)
  (data : UpdateArticleData) (session : list Article) (current_user : User) :
  ~ In article_id (map id session) ->
  update_article article_id data session current_user
  = (session, Raise not_found)
  /\ delete_article article_id session current_user
     = (session, Raise not_found)
  /\ get_article article_id session = Raise not_found.
Proof.
  intros Hn. apply LookupFacts.find_id_none in Hn.
  unfold update_article, delete_article, get_article. rewrite Hn.
  repeat split.
Qed.

Lemma update_delete_unknown_id_witness :
  update_article (py "no-such-id") (only_content (py "x")) articles2 admin
  = (articles2, Raise not_found)
  /\ delete_article (py "no-such-id") articles2 admin
     = (articles2, Raise not_found).
Proof.
  assert (Hn : ~ In (py "no-such-id") (map id articles2))
    by (cbn; intuition discriminate).
  destruct (update_delete_unknown_id (py "no-such-id") (only_content (py "x"))
              articles2 admin Hn) as (Hu & Hd & _).
  split; assumption.
Defined.

(** X13: after [update_article] of a stored article, [get_article] with
    that id answers exactly what the update answered; [get_article] for any
    other id answers as before; and the ids of the table, in order, are
    unchanged. *)
Theorem update_then_get_article (article_id : str) (data : UpdateArticleData)
  (session : list Article) (current_user : User) :
  In article_id (map id session) ->
  get_article article_id
    (fst (update_article article_id data session current_user))
  = snd (update_article article_id data session current_user)
  /\ (forall k, k <> article_id ->
        get_article k
          (fst (update_article article_id data session current_user))
        = get_article k session)
  /\ map id (fst (update_article article_id data session current_user))
     = map id session.
Proof.
  intros Hin. destruct (LookupFacts.find_id_in _ _ Hin) as [a Ef].
  pose proof (LookupFacts.find_id_some _ _ _ Ef) as [_ Hid].
  unfold update_article. rewrite Ef. cbn [fst snd].
  pose proof (TableFacts.apply_update_id data a) as Hid'.
  assert (Hk : id (apply_update data a) = article_id) by congruence.
  split; [| split].
  - assert (Hfind : find (fun b => PyStr.eqb (id b) article_id)
                        (store (apply_update data a) session)
                      = Some (apply_update data a)).
    { rewrite <- Hk. apply TableFacts.find_store_same.
      rewrite Hk. assumption. }
    unfold get_article. rewrite Hfind. reflexivity.
  - intros k Hne. unfold get_article.
    rewrite TableFacts.find_store_other by congruence. reflexivity.
  - apply TableFacts.store_ids.
Qed.

Lemma update_then_get_article_witness :
  exists d,
    snd (update_article (py "uuid-a") (only_content (py "new text")) articles2
           admin) = Ok d
    /\ get_article (py "uuid-a")
         (fst (update_article (py "uuid-a") (only_content (py "new text"))
                 articles2 admin)) = Ok d
    /\ d_content d = py "new text".
Proof.
  eexists. split; [reflexivity |]. split; [| reflexivity].
  assert (Hin : In (py "uuid-a") (map id articles2)) by (left; reflexivity).
  apply (update_then_get_article (py "uuid-a") (only_content (py "new text"))
           articles2 admin Hin).
Defined.

(** X14: [update_article] is idempotent: the same request applied to the
    table it has left gives the same table and the same answer. *)
Theorem update_article_twice (article_id : str) (data : UpdateArticleData)
  (session : list Article) (current_user : User) :
  update_article article_id data
    (fst (update_article article_id data session current_user)) current_user
  = update_article article_id data session current_user.
Proof.
  unfold update_article.
  destruct (find (fun a => PyStr.eqb (id a) article_id) session)
    as [a |] eqn:Ef; cbn [fst].
  - pose proof (LookupFacts.find_id_some _ _ _ Ef) as [Hin Hid].
    pose proof (TableFacts.apply_update_id data a) as Hid'.
    assert (Hfind : find (fun b => PyStr.eqb (id b) article_id)
                      (store (apply_update data a) session)
                    = Some (apply_update data a)).
    { replace article_id with (id (apply_update data a)) by congruence.
      apply TableFacts.find_store_same. rewrite Hid', Hid.
      apply in_map_iff. exists a. auto. }
    rewrite Hfind, TableFacts.apply_update_twice.
    rewrite TableFacts.store_store by reflexivity. reflexivity.
  - rewrite Ef. reflexivity.
Qed.

(** X15: an update request with no field leaves the table as it was, and
    for a stored article answers what [get_article] answers. *)
Theorem update_article_empty_patch (article_id : str)
  (session : list Article) (current_user : User) :
  fst (update_article article_id
         {| u_title := None; u_content := None; u_excerpt := None;
            u_category := None; u_tags := None; u_image_url := None;
            u_status := None |} session current_user)
  = session
  /\ (In article_id (map id session) ->
      snd (update_article article_id
             {| u_title := None; u_content := None; u_excerpt := None;
                u_category := None; u_tags := None; u_image_url := None;
                u_status := None |} session current_user)
      = get_article article_id session).
Proof.
  unfold update_article, get_article.
  destruct (find (fun a => PyStr.eqb (id a) article_id) session)
    as [a |] eqn:Ef; cbn [fst snd].
  - rewrite TableFacts.apply_update_nothing. split; [| reflexivity].
    apply TableFacts.store_found.
    pose proof (LookupFacts.find_id_some _ _ _ Ef) as [_ Hid].
    rewrite Hid. assumption.
  - split; [reflexivity |].
    intros Hin. apply LookupFacts.find_id_none in Ef. contradiction.
Qed.

(** X16: on a table with distinct ids, [delete_article] of a stored id
    succeeds and leaves a table with one row less, made of rows of the old
    table, in which the id no longer occurs: [get_article] and a second
    delete answer 404, and [get_article] for any other id answers as
    before. *)
Theorem delete_article_removes (article_id : str) (session : list Article)
  (current_user : User) :
  NoDup (map id session) ->
  In article_id (map id session) ->
  exists session',
    delete_article article_id session current_user
    = (session', Ok "Article deleted successfully"%string)
    /\ S (List.length session') = List.length session
    /\ ~ In article_id (map id session')
    /\ incl session' session
    /\ get_article article_id session' = Raise not_found
    /\ delete_article article_id session' current_user
       = (session', Raise not_found)
    /\ (forall k, k <> article_id ->
          get_article k session' = get_article k session).
Proof.
  intros Hnd Hin. destruct (LookupFacts.find_id_in _ _ Hin) as [a Ef].
  pose proof (LookupFacts.find_id_some _ _ _ Ef) as [_ Hid].
  exists (delete a session).
  destruct (TableFacts.delete_keys_distinct a session Hnd) as [_ Hgone].
  rewrite Hid in Hgone.
  pose proof Hgone as Hnone. apply LookupFacts.find_id_none in Hnone.
  split; [unfold delete_article; rewrite Ef; reflexivity |].
  split; [apply TableFacts.delete_length; rewrite Hid; assumption |].
  split; [assumption |].
  split; [apply TableFacts.delete_incl |].
  split; [unfold get_article; rewrite Hnone; reflexivity |].
  split; [unfold delete_article; rewrite Hnone; reflexivity |].
  intros k Hk. unfold get_article.
  rewrite TableFacts.find_delete_other by congruence. reflexivity.
Qed.

Lemma delete_article_removes_witness :
  exists session',
    delete_article (py "uuid-a") articles2 admin
    = (session', Ok "Article deleted successfully"%string)
    /\ map id session' = [py "uuid-b"]
    /\ get_article (py "uuid-a") session' = Raise not_found.
Proof.
  assert (Hnd : NoDup (map id articles2))
    by (repeat constructor; cbn; intuition discriminate).
  assert (Hin : In (py "uuid-a") (map id articles2)) by (left; reflexivity).
  destruct (delete_article_removes (py "uuid-a") articles2 admin Hnd Hin)
    as (session' & Hdel & _ & _ & _ & Hget & _).
  exists session'. split; [exact Hdel |]. split; [| exact Hget].
  vm_compute in Hdel. injection Hdel as <-. reflexivity.
Defined.

(** X17: deleting the article that [create_article] has just created,
    under an id that was free, gives back the table as it was before the
    creation. *)
Theorem create_then_delete_restores (uuid4 : str) (now : datetime)
  (data : CreateArticleData) (session : list Article) (current_user : User) :
  existsb (fun a => PyStr.eqb (id a) uuid4) session = false ->
  delete_article uuid4
    (fst (create_article uuid4 now data session current_user)) current_user
  = (session, Ok "Article deleted successfully"%string).
Proof.
  intros Hfresh. unfold create_article, insert. cbn [id].
  rewrite Hfresh. cbn [fst]. unfold delete_article.
  assert (Hn : ~ In uuid4 (map id session))
    by (apply CreateFacts.existsb_id_false; assumption).
  pose proof Hn as Hnone. apply LookupFacts.find_id_none in Hnone.
  rewrite (LookupFacts.find_app_none _ _ _ Hnone). cbn [find id].
  rewrite eqb_refl.
  rewrite TableFacts.delete_appended by (cbn [id]; assumption).
  reflexivity.
Qed.

Lemma create_then_delete_restores_witness :
  delete_article (py "uuid-c")
    (fst (create_article (py "uuid-c") 7%Z new_article_data articles2 admin))
    admin
  = (articles2, Ok "Article deleted successfully"%string).
Proof.
  apply (create_then_delete_restores (py "uuid-c") 7%Z new_article_data
           articles2 admin eq_refl).
Defined.

(** X18: on a table with distinct ids, the table left by
    [create_article], by [update_article] and by [delete_article] has
    distinct ids, whatever the request and whether or not it succeeds. *)
Theorem primary_keys_stay_distinct (session : list Article)
  (current_user : User) :
  NoDup (map id session) ->
  (forall uuid4 now data,
     NoDup (map id (fst (create_article uuid4 now data session
                           current_user))))
  /\ (forall article_id data,
        NoDup (map id (fst (update_article article_id data session
                              current_user))))
  /\ (forall article_id,
        NoDup (map id (fst (delete_article article_id session
                              current_user)))).
Proof.
  intros Hnd. split; [| split].
  - intros uuid4 now data. unfold create_article.
    match goal with
    | |- context [insert ?a session] =>
        destruct (insert a session) as [session' |] eqn:E; cbn [fst];
        [apply (CreateFacts.insert_keeps_keys_distinct a session session')
        |]; assumption
    end.
  - intros article_id data. unfold update_article.
    destruct (find _ session); cbn [fst]; [| assumption].
    rewrite TableFacts.store_ids. assumption.
  - intros article_id. unfold delete_article.
    destruct (find _ session); cbn [fst]; [| assumption].
    apply TableFacts.delete_keys_distinct. assumption.
Qed.

Lemma primary_keys_stay_distinct_witness :
  NoDup (map id (fst (create_article (py "uuid-c") 7%Z new_article_data
                        articles2 admin))).
Proof.
  assert (Hnd : NoDup (map id articles2))
    by (repeat constructor; cbn; intuition discriminate).
  apply (primary_keys_stay_distinct articles2 admin Hnd).
Defined.

(** X19: if every stored tags text can be read back by [json.loads], it
    still can after [create_article] and [update_article] with tags made of
    Unicode scalar values, and after [delete_article]. *)
Theorem stored_tags_stay_readable (session : list Article)
  (current_user : User) :
  forallb decodable session = true ->
  (forall uuid4 now data,
     Forall text (c_tags data) ->
     forallb decodable
       (fst (create_article uuid4 now data session current_user)) = true)
  /\ (forall article_id data,
        (forall l, u_tags data = Some l -> Forall text l) ->
        forallb decodable
          (fst (update_article article_id data session current_user)) = true)
  /\ (forall article_id,
        forallb decodable
          (fst (delete_article article_id session current_user)) = true).
Proof.
  intros Hd. split; [| split].
  - intros uuid4 now data Ht.
    apply create_article_decodable; assumption.
  - intros article_id data Ht. unfold update_article.
    destruct (find (fun a => PyStr.eqb (id a) article_id) session)
      as [a |] eqn:Ef; cbn [fst]; [| assumption].
    assert (Ha : decodable (apply_update data a) = true).
    { pose proof (UpdateFacts.apply_update_fields data a) as F.
      cbv zeta in F.
      destruct F as (_ & _ & _ & _ & _ & _ & _ & _ & _ & Ft & _).
      destruct (u_tags data) as [l |] eqn:El.
      - apply (dumps_decodable _ l); [apply Ht; reflexivity | assumption].
      - unfold decodable. rewrite Ft.
        apply find_some in Ef. destruct Ef as [Hin _].
        rewrite forallb_forall in Hd. apply (Hd a Hin). }
    clear Ef. induction session as [| b session IH]; [reflexivity |].
    cbn [store forallb] in *. apply andb_true_iff in Hd.
    destruct Hd as [Hb Hs].
    destruct (PyStr.eqb (id b) (id (apply_update data a)));
      cbn [forallb]; apply andb_true_iff; auto.
  - intros article_id. unfold delete_article.
    destruct (find _ session) as [a |]; cbn [fst]; [| assumption].
    apply (forallb_incl _ _ session); [| assumption].
    apply TableFacts.delete_incl.
Qed.

Lemma stored_tags_stay_readable_witness :
  forallb decodable
    (fst (create_article (py "uuid-c") 7%Z new_article_data articles2 admin))
  = true.
Proof.
  apply (stored_tags_stay_readable articles2 admin eq_refl).
  repeat constructor; unfold scalar; lia.
Defined.

Module ListFacts.

(** The dictionaries of [article_dicts] go with the articles one by one. *)
Lemma article_dicts_each (l : list Article) : forall ds,
  article_dicts l = Ok ds ->
  Forall2 (fun a d => article_dict a = Ok d) l ds.
Proof.
  induction l as [| a l IH]; cbn [article_dicts]; intros ds H.
  - injection H as <-. constructor.
  - destruct (article_dict a) as [d | e] eqn:Ed; [| discriminate].
    destruct (article_dicts l) as [ds' | e]; [| discriminate].
    injection H as <-. constructor; [assumption | apply IH; reflexivity].
Qed.

Lemma article_dicts_source (l : list Article) (ds : list ArticleDict)
  (d : ArticleDict) :
  article_dicts l = Ok ds -> In d ds ->
  exists a, In a l /\ article_dict a = Ok d.
Proof.
  intros H. apply article_dicts_each in H.
  induction H as [| a d' l ds Hd _ IH]; intros Hin; [contradiction |].
  destruct Hin as [<- | Hin].
  - exists a. split; [left; reflexivity | assumption].
  - destruct (IH Hin) as (a' & Ha' & Hd'). exists a'. split; [right |]; auto.
Qed.

Lemma article_dicts_length (l : list Article) (ds : list ArticleDict) :
  article_dicts l = Ok ds -> List.length ds = List.length l.
Proof.
  intros H. apply article_dicts_each in H. symmetry.
  apply (Forall2_length H).
Qed.

Lemma article_dicts_app (l1 l2 : list Article) (d1 d2 : list ArticleDict) :
  article_dicts l1 = Ok d1 -> article_dicts l2 = Ok d2 ->
  article_dicts (l1 ++ l2) = Ok (d1 ++ d2).
Proof.
  revert d1. induction l1 as [| a l1 IH]; cbn [article_dicts app];
    intros d1 H1 H2.
  - injection H1 as <-. assumption.
  - destruct (article_dict a) as [d | e]; [| discriminate].
    destruct (article_dicts l1) as [ds | e]; [| discriminate].
    injection H1 as <-. rewrite (IH ds eq_refl H2). reflexivity.
Qed.

Lemma article_dict_fields (a : Article) (d : ArticleDict) :
  article_dict a = Ok d ->
  d_id d = id a /\ d_category d = category a /\ d_status d = status a
  /\ d_title d = title a /\ d_content d = content a.
Proof.
  unfold article_dict. destruct (Json.loads (tags a)); [| discriminate].
  intros H. injection H as <-. repeat split.
Qed.

Lemma firstn_plus {A : Type} (n m : nat) (l : list A) :
  firstn (n + m) l = firstn n l ++ firstn m (skipn n l).
Proof.
  revert l. induction n as [| n IH]; intros l; [reflexivity |].
  destruct l as [| x l]; cbn [Nat.add firstn skipn app].
  - rewrite firstn_nil. reflexivity.
  - rewrite IH. reflexivity.
Qed.

(** Two windows that follow one another make up the window over both. *)
Lemma offset_limit_pages {A : Type} (offset l1 l2 : Z) (rows : list A) :
  (0 <= offset)%Z -> (0 <= l1)%Z -> (0 <= l2)%Z ->
  Sqlite.offset_limit offset l1 rows
  ++ Sqlite.offset_limit (offset + l1) l2 rows
  = Sqlite.offset_limit offset (l1 + l2) rows.
Proof.
  intros Ho H1 H2. unfold Sqlite.offset_limit.
  assert (E1 : (l1 <? 0)%Z = false) by (apply Z.ltb_ge; lia).
  assert (E2 : (l2 <? 0)%Z = false) by (apply Z.ltb_ge; lia).
  assert (E3 : (l1 + l2 <? 0)%Z = false) by (apply Z.ltb_ge; lia).
  rewrite E1, E2, E3.
  rewrite !Z2Nat.inj_add by assumption.
  rewrite firstn_plus, skipn_skipn.
  rewrite (Nat.add_comm (Z.to_nat l1)). reflexivity.
Qed.

Lemma offset_limit_length {A : Type} (offset limit : Z) (rows : list A) :
  (0 <= offset)%Z -> (0 <= limit)%Z ->
  Z.of_nat (List.length (Sqlite.offset_limit offset limit rows))
  = Z.min limit (Z.max 0 (Z.of_nat (List.length rows) - offset)).
Proof.
  intros Ho Hl. unfold Sqlite.offset_limit.
  assert (E : (limit <? 0)%Z = false) by (apply Z.ltb_ge; lia).
  rewrite E, length_firstn, length_skipn. lia.
Qed.

Lemma CategoryEnum_value_inj (c c' : CategoryEnum) :
  CategoryEnum_value c = CategoryEnum_value c' -> c = c'.
Proof. destruct c, c'; intros H; (reflexivity || discriminate H). Qed.

End ListFacts.

(** X20: for a search that LIKE does not refuse and a limit and an offset
    that are not negative, [get_articles] returns
    [min(limit, max(0, total - offset))] items, never more than [limit];
    when [has_more] is true the page is full and matching records lie beyond
    it, and when [has_more] is false the items are all the matching records
    from [offset] on. *)
Theorem get_articles_page_size (category status search : option str)
  (limit offset : Z) (session : list Article) :
  search_raises category status search session = false ->
  Sqlite.fits_integer limit = true ->
  Sqlite.fits_integer offset = true ->
  forallb decodable session = true ->
  (0 <= offset)%Z -> (0 <= limit)%Z ->
  exists r,
    get_articles category status search limit offset session = Ok r
    /\ Z.of_nat (List.length (articles r))
       = Z.min limit (Z.max 0 (total r - offset))
    /\ (Z.of_nat (List.length (articles r)) <= limit)%Z
    /\ (has_more r = true ->
        Z.of_nat (List.length (articles r)) = limit
        /\ (offset + Z.of_nat (List.length (articles r)) < total r)%Z)
    /\ (has_more r = false ->
        article_dicts
          (skipn (Z.to_nat offset)
             (exec_all (build_query category status search) session))
        = Ok (articles r)).
Proof.
  intros Hs Hl Ho Hd Hoff Hlim.
  destruct (get_articles_ok category status search limit offset session
              Hs Hl Ho Hd) as (r & E & Ht & Hm & Hitems).
  exists r. split; [exact E |].
  pose proof (ListFacts.article_dicts_length _ _ Hitems) as Hlen.
  pose proof (ListFacts.offset_limit_length offset limit
                (exec_all (build_query category status search) session)
                Hoff Hlim) as Hwin.
  rewrite <- Hlen, <- Ht in Hwin.
  split; [exact Hwin |]. split; [lia |]. split.
  - intros Hmore. rewrite Hmore in Hm. symmetry in Hm.
    apply Z.ltb_lt in Hm. lia.
  - intros Hmore. rewrite Hmore in Hm. symmetry in Hm.
    apply Z.ltb_ge in Hm. rewrite <- Hitems. f_equal.
    unfold Sqlite.offset_limit.
    assert (En : (limit <? 0)%Z = false) by (apply Z.ltb_ge; lia).
    rewrite En. symmetry. apply firstn_all2. rewrite length_skipn. lia.
Qed.

Lemma get_articles_page_size_witness :
  exists r,
    get_articles None None None 10 20 (numbered 25) = Ok r
    /\ Z.of_nat (List.length (articles r)) = 5%Z.
Proof.
  destruct (get_articles_page_size None None None 10 20 (numbered 25)
              eq_refl eq_refl eq_refl eq_refl) as (r & E & Hn & _);
    [lia | lia |].
  exists r. split; [exact E |]. rewrite Hn.
  vm_compute in E. injection E as <-. reflexivity.
Defined.

(** X21: for a search that LIKE does not refuse, two pages that follow one
    another make up the one page over both: the items for [(offset, l1)]
    followed by the items for [(offset + l1, l2)] are the items for
    [(offset, l1 + l2)], and all three calls report the same total. *)
Theorem get_articles_pages_concatenate (category status search : option str)
  (offset l1 l2 : Z) (session : list Article) :
  search_raises category status search session = false ->
  Sqlite.fits_integer offset = true ->
  Sqlite.fits_integer (offset + l1) = true ->
  Sqlite.fits_integer l1 = true ->
  Sqlite.fits_integer l2 = true ->
  Sqlite.fits_integer (l1 + l2) = true ->
  forallb decodable session = true ->
  (0 <= offset)%Z -> (0 <= l1)%Z -> (0 <= l2)%Z ->
  exists r1 r2 r12,
    get_articles category status search l1 offset session = Ok r1
    /\ get_articles category status search l2 (offset + l1) session = Ok r2
    /\ get_articles category status search (l1 + l2) offset session = Ok r12
    /\ articles r1 ++ articles r2 = articles r12
    /\ total r1 = total r12 /\ total r2 = total r12.
Proof.
  intros Hs Ho Ho1 H1 H2 H12 Hd Hoff Hl1 Hl2.
  destruct (get_articles_ok category status search l1 offset session
              Hs H1 Ho Hd) as (r1 & E1 & Ht1 & _ & Hi1).
  destruct (get_articles_ok category status search l2 (offset + l1) session
              Hs H2 Ho1 Hd) as (r2 & E2 & Ht2 & _ & Hi2).
  destruct (get_articles_ok category status search (l1 + l2) offset session
              Hs H12 Ho Hd) as (r12 & E12 & Ht12 & _ & Hi12).
  exists r1, r2, r12. repeat (split; [assumption |]).
  split; [| split; congruence].
  pose proof (ListFacts.article_dicts_app _ _ _ _ Hi1 Hi2) as Happ.
  rewrite ListFacts.offset_limit_pages in Happ by assumption.
  congruence.
Qed.

Lemma get_articles_pages_concatenate_witness :
  exists r1 r2 r12,
    get_articles None None None 10 0 (numbered 25) = Ok r1
    /\ get_articles None None None 10 10 (numbered 25) = Ok r2
    /\ get_articles None None None 20 0 (numbered 25) = Ok r12
    /\ articles r1 ++ articles r2 = articles r12.
Proof.
  destruct (get_articles_pages_concatenate None None None 0 10 10
              (numbered 25) eq_refl eq_refl eq_refl eq_refl eq_refl eq_refl
              eq_refl)
    as (r1 & r2 & r12 & E1 & E2 & E12 & Happ & _); [lia | lia | lia |].
  exists r1, r2, r12. repeat (split; [assumption |]). exact Happ.
Defined.

(** X22: with the category filter set to the text of a member of
    [CategoryEnum] and no other filter, every returned item has that
    category, every stored article of that category is selected, and [total]
    counts them; with a non-empty text that is no member's text the call
    does not fail: it returns no item and total 0. *)
Theorem get_articles_by_category (c : CategoryEnum) (unknown : str)
  (limit offset : Z) (session : list Article) :
  Sqlite.fits_integer limit = true ->
  Sqlite.fits_integer offset = true ->
  forallb decodable session = true ->
  (forall c', CategoryEnum_value c' <> unknown) ->
  unknown <> [] ->
  (exists r,
     get_articles (Some (CategoryEnum_value c)) None None limit offset session
     = Ok r
     /\ Forall (fun d => d_category d = c) (articles r)
     /\ total r
        = Z.of_nat
            (List.length
               (filter (fun a => PyStr.eqb (CategoryEnum_value (category a))
                                   (CategoryEnum_value c)) session))
     /\ (forall a, In a session -> category a = c ->
           In a (exec_all
                   (build_query (Some (CategoryEnum_value c)) None None)
                   session)))
  /\ (exists r,
        get_articles (Some unknown) None None limit offset session = Ok r
        /\ articles r = [] /\ total r = 0%Z).
Proof.
  intros Hl Ho Hd Hunk Hne. split.
  - destruct (get_articles_ok (Some (CategoryEnum_value c)) None None
                limit offset session eq_refl Hl Ho Hd)
      as (r & E & Ht & _ & Hitems).
    exists r. split; [exact E |].
    assert (Hq : forall a,
              build_query (Some (CategoryEnum_value c)) None None a
              = PyStr.eqb (CategoryEnum_value (category a))
                  (CategoryEnum_value c)).
    { intros a. unfold build_query.
      replace (truthy (CategoryEnum_value c)) with true
        by (destruct c; reflexivity).
      reflexivity. }
    split; [| split].
    + apply Forall_forall. intros d Hin.
      destruct (ListFacts.article_dicts_source _ _ d Hitems Hin)
        as (a & Ha & Hdict).
      apply ListFacts.article_dict_fields in Hdict.
      destruct Hdict as (_ & Hcat & _). rewrite Hcat.
      apply SqliteFacts.offset_limit_incl in Ha. unfold exec_all in Ha.
      apply filter_In in Ha. destruct Ha as [_ Ha]. rewrite Hq in Ha.
      apply eqb_eq in Ha. apply ListFacts.CategoryEnum_value_inj. exact Ha.
    + rewrite Ht. unfold exec_all. f_equal. f_equal.
      apply filter_ext. exact Hq.
    + intros a Hin Hcat. unfold exec_all. apply filter_In.
      split; [assumption |]. rewrite Hq, Hcat. apply eqb_refl.
  - destruct (get_articles_ok (Some unknown) None None limit offset session
                eq_refl Hl Ho Hd) as (r & E & Ht & _ & Hitems).
    exists r. split; [exact E |].
    assert (Hnone : exec_all (build_query (Some unknown) None None) session
                    = []).
    { assert (Hq : forall a, build_query (Some unknown) None None a = false).
      { intros a. unfold build_query.
        assert (Htr : truthy unknown = true)
          by (destruct unknown; [contradiction Hne; reflexivity
                                | reflexivity]).
        rewrite Htr. unfold where_, select_Article. cbn [andb].
        apply TableFacts.eqb_neq. apply Hunk. }
      unfold exec_all. clear - Hq.
      induction session as [| a l IH]; [reflexivity |].
      cbn [filter]. rewrite Hq. exact IH. }
    rewrite Hnone in Ht, Hitems. split; [| exact Ht].
    unfold Sqlite.offset_limit in Hitems. rewrite skipn_nil in Hitems.
    destruct (limit <? 0)%Z; [| rewrite firstn_nil in Hitems];
      cbn [article_dicts] in Hitems; congruence.
Qed.

Lemma get_articles_by_category_witness :
  (exists r,
     get_articles (Some (py "market")) None None 10 0 articles2 = Ok r
     /\ map d_category (articles r) = [market] /\ total r = 1%Z)
  /\ (exists r,
        get_articles (Some (py "markets")) None None 10 0 articles2 = Ok r
        /\ articles r = [] /\ total r = 0%Z).
Proof.
  assert (Hunk : forall c', CategoryEnum_value c' <> py "markets")
    by (intros c'; destruct c'; discriminate).
  assert (Hne : py "markets" <> []) by discriminate.
  destruct (get_articles_by_category market (py "markets") 10 0 articles2
              eq_refl eq_refl eq_refl Hunk Hne)
    as [(r & E & _ & Ht & _) Hnone].
  split; [| exact Hnone].
  exists r. split; [exact E |]. split; [| exact Ht].
  vm_compute in E. injection E as <-. reflexivity.
Defined.

Module AsciiFacts.

Import Json Text.

Lemma hexdigit_printable (d : N) : d < 16 -> printable (hexdigit d).
Proof.
  intros Hd. unfold hexdigit, printable.
  destruct (d <? 10) eqn:E; [apply N.ltb_lt in E | apply N.ltb_ge in E]; lia.
Qed.

Lemma backslash_u_printable (n : N) :
  n < 65536 -> Forall printable (backslash_u n).
Proof.
  intros Hn. unfold backslash_u, hex4.
  assert (n / 4096 < 16) by (apply N.Div0.div_lt_upper_bound; lia).
  repeat constructor; try (unfold printable; lia);
    apply hexdigit_printable; try assumption; apply N.mod_lt; lia.
Qed.

Lemma lor_below (a b k : N) : a < 2 ^ k -> b < 2 ^ k -> N.lor a b < 2 ^ k.
Proof.
  intros Ha Hb.
  destruct (N.eq_dec (N.lor a b) 0) as [-> | Hnz];
    [apply N.neq_0_lt_0, N.pow_nonzero; lia |].
  apply N.log2_lt_pow2; [lia |].
  rewrite N.log2_lor.
  destruct (N.eq_dec a 0) as [-> | Ha0], (N.eq_dec b 0) as [-> | Hb0].
  - contradiction Hnz. reflexivity.
  - rewrite N.max_r by (cbn; lia). apply N.log2_lt_pow2; lia.
  - rewrite N.max_l by (cbn; lia). apply N.log2_lt_pow2; lia.
  - apply N.max_lub_lt; apply N.log2_lt_pow2; lia.
Qed.

Lemma land_below (a : N) : N.land a 1023 < 1024.
Proof.
  change 1023 with (N.ones 10). rewrite N.land_ones.
  apply N.mod_lt. discriminate.
Qed.

Lemma escape_char_printable (c : N) : Forall printable (escape_char c).
Proof.
  unfold escape_char.
  repeat match goal with
  | |- context [if ?b then _ else _] =>
      lazymatch b with
      | (_ =? _) => destruct b; [repeat constructor; unfold printable; lia |]
      end
  end.
  destruct ((32 <=? c) && (c <=? 126)) eqn:Ep.
  - apply andb_true_iff in Ep. destruct Ep as [H1 H2].
    apply N.leb_le in H1, H2. repeat constructor; assumption.
  - destruct (c <? 65536) eqn:Eb.
    + apply N.ltb_lt in Eb. apply backslash_u_printable. assumption.
    + cbv zeta. apply Forall_app. split; apply backslash_u_printable.
      * apply (lor_below _ _ 16); [reflexivity |].
        apply N.lt_trans with 1024; [apply land_below | reflexivity].
      * apply (lor_below _ _ 16); [reflexivity |].
        apply N.lt_trans with 1024; [apply land_below | reflexivity].
Qed.

Lemma encode_str_printable (s : str) : Forall printable (encode_str s).
Proof.
  unfold encode_str, escape. constructor; [unfold printable; lia |].
  apply Forall_app. split; [| repeat constructor; unfold printable; lia].
  induction s as [| c s IH]; cbn [flat_map]; [constructor |].
  apply Forall_app. split; [apply escape_char_printable | exact IH].
Qed.

End AsciiFacts.

(** X23: the text that [json.dumps] writes for a list of tags holds only
    printable ASCII characters, whatever the tags; so does the [tags] column
    of every article that [create_article] stores. *)
Theorem stored_tags_are_ascii (tag_list : list str) :
  Forall Text.printable (Json.dumps tag_list)
  /\ (forall uuid4 now data session current_user article,
        c_tags data = tag_list ->
        In article
           (fst (create_article uuid4 now data session current_user)) ->
        ~ In article session ->
        Forall Text.printable (tags article)).
Proof.
  assert (Hd : Forall Text.printable (Json.dumps tag_list)).
  { unfold Json.dumps. constructor; [unfold Text.printable; lia |].
    apply Forall_app.
    split; [| repeat constructor; unfold Text.printable; lia].
    induction tag_list as [| t l IH]; [constructor |].
    rewrite JsonFacts.encode_items_cons.
    pose proof (AsciiFacts.encode_str_printable t) as Ht.
    unfold Json.encode_str in Ht. inversion Ht as [| ? ? H34 Hrest]; subst.
    constructor; [exact H34 |].
    apply Forall_app in Hrest. destruct Hrest as [Hesc Hq].
    apply Forall_app. split; [exact Hesc |].
    constructor; [unfold Text.printable; lia |].
    destruct l as [| t' l]; [constructor |].
    constructor; [unfold Text.printable; lia |].
    constructor; [unfold Text.printable; lia |]. exact IH. }
  split; [exact Hd |].
  intros uuid4 now data session current_user article Htags Hin Hnew.
  unfold create_article, insert in Hin. cbn [id] in Hin.
  destruct (existsb (fun a => PyStr.eqb (id a) uuid4) session);
    cbn [fst] in Hin; [contradiction |].
  apply in_app_or in Hin. destruct Hin as [Hin | [<- | []]];
    [contradiction |].
  cbn [tags]. rewrite Htags. exact Hd.
Qed.

Module ReadTimeFacts.

Lemma split_from_spaces (s : str) :
  forallb isspace s = true -> split_from None s = [].
Proof.
  induction s as [| c s IH]; [reflexivity |].
  cbn [forallb split_from]. intros H. apply andb_true_iff in H.
  destruct H as [Hc Hs]. rewrite Hc. apply IH. assumption.
Qed.

Lemma read_time_label_short (c : str) :
  (List.length (PyStr.split c) < 200)%nat -> read_time_label c = py "1 min".
Proof.
  intros H. unfold read_time_label, read_time_minutes.
  rewrite N.div_small by lia. reflexivity.
Qed.

End ReadTimeFacts.

(** X24: content of fewer than 200 words gets the read time [1 min], on
    the update path and on the create path alike. *)
Theorem read_time_of_short_content (c : str) :
  (List.length (PyStr.split c) < 200)%nat ->
  (forall data a,
     u_content data = Some c ->
     read_time (apply_update data a) = py "1 min")
  /\ (forall uuid4 now data session current_user,
        c_content data = c ->
        existsb (fun a => PyStr.eqb (id a) uuid4) session = false ->
        exists article,
          fst (create_article uuid4 now data session current_user)
          = session ++ [article]
          /\ read_time article = py "1 min").
Proof.
  intros Hw. pose proof (ReadTimeFacts.read_time_label_short c Hw) as Hl.
  split.
  - intros data a Hc.
    pose proof (UpdateFacts.apply_update_fields data a) as F. cbv zeta in F.
    destruct F as (_ & _ & _ & _ & _ & _ & _ & _ & _ & _ & Frt).
    rewrite Frt, Hc. exact Hl.
  - intros uuid4 now data session current_user Hc Hfresh.
    unfold create_article, insert. cbn [id]. rewrite Hfresh. cbn [fst].
    eexists. split; [reflexivity |]. cbn [read_time]. rewrite Hc. exact Hl.
Qed.

Lemma read_time_of_short_content_witness :
  read_time (apply_update (only_content (py "new text"))
               (Database.bitcoin_article (py "uuid-a") 0%Z))
  = py "1 min".
Proof.
  assert (Hw : (List.length (PyStr.split (py "new text")) < 200)%nat)
    by (vm_compute; lia).
  destruct (read_time_of_short_content (py "new text") Hw) as [Hu _].
  apply Hu. reflexivity.
Defined.

(** X25: content made only of whitespace has no word for [split()], so
    its read time is [1 min]. *)
Theorem whitespace_content_counts_no_words (c : str) :
  forallb isspace c = true ->
  PyStr.split c = []
  /\ read_time_label c = py "1 min".
Proof.
  intros H. pose proof (ReadTimeFacts.split_from_spaces c H) as Hs.
  split; [exact Hs |].
  apply ReadTimeFacts.read_time_label_short. unfold PyStr.split.
  rewrite Hs. cbn. lia.
Qed.

Lemma whitespace_content_counts_no_words_witness :
  read_time_label [32; 10; 9; 32] = py "1 min".
Proof.
  apply (whitespace_content_counts_no_words [32; 10; 9; 32] eq_refl).
Defined.

(** X26: after [create_article] with an id that was free, the total that
    [get_articles] reports under any filters, with a search that LIKE does
    not refuse on the table the call leaves, grows by one if the new article
    matches the filters and stays the same otherwise; without filters it
    grows by one. *)
Theorem create_then_list_total (category status search : option str)
  (limit offset : Z) (uuid4 : str) (now : datetime)
  (data : CreateArticleData) (session : list Article) (current_user : User) :
  search_raises category status search
    (fst (create_article uuid4 now data session current_user)) = false ->
  Sqlite.fits_integer limit = true ->
  Sqlite.fits_integer offset = true ->
  forallb decodable session = true ->
  Forall text (c_tags data) ->
  existsb (fun a => PyStr.eqb (id a) uuid4) session = false ->
  exists article r r',
    fst (create_article uuid4 now data session current_user)
    = session ++ [article]
    /\ get_articles category status search limit offset session = Ok r
    /\ get_articles category status search limit offset (session ++ [article])
       = Ok r'
    /\ total r'
       = (total r
          + if build_query category status search article then 1 else 0)%Z
    /\ (category = None -> status = None -> search = None ->
        total r' = (total r + 1)%Z).
Proof.
  intros Hs Hl Ho Hd Ht Hfresh.
  pose proof (create_article_decodable uuid4 now data session current_user
                Ht Hd) as Hd'.
  unfold create_article, insert in *. cbn [id] in *.
  rewrite Hfresh in *. cbn [fst] in *.
  match type of Hd' with
  | forallb decodable (session ++ [?a]) = true => set (article := a) in *
  end.
  exists article.
  destruct (get_articles_ok category status search limit offset session
              (search_raises_app _ _ _ _ _ Hs) Hl Ho Hd)
    as (r & E & Htot & _).
  destruct (get_articles_ok category status search limit offset
              (session ++ [article]) Hs Hl Ho Hd') as (r' & E' & Htot' & _).
  exists r, r'. split; [reflexivity |].
  split; [exact E |]. split; [exact E' |].
  assert (Hsum :
    total r'
    = (total r
       + if build_query category status search article then 1 else 0)%Z).
  { rewrite Htot', Htot. unfold exec_all. rewrite filter_app, length_app.
    cbn [filter]. destruct (build_query category status search article);
      cbn [List.length]; lia. }
  split; [exact Hsum |].
  intros -> -> ->. rewrite Hsum. reflexivity.
Qed.

Lemma create_then_list_total_witness :
  exists r r',
    get_articles None None None 10 0 articles2 = Ok r
    /\ get_articles None None None 10 0
         (fst (create_article (py "uuid-c") 7%Z new_article_data articles2
                 admin)) = Ok r'
    /\ total r = 2%Z /\ total r' = 3%Z.
Proof.
  assert (Htext : Forall text (c_tags new_article_data))
    by (repeat constructor; unfold scalar; lia).
  destruct (create_then_list_total None None None 10 0 (py "uuid-c") 7%Z
              new_article_data articles2 admin
              eq_refl eq_refl eq_refl eq_refl Htext eq_refl)
    as (a & r & r' & Ea & E & E' & _ & Hall).
  exists r, r'. split; [exact E |]. rewrite Ea. split; [exact E' |].
  rewrite (Hall eq_refl eq_refl eq_refl).
  vm_compute in E. injection E as <-. split; reflexivity.
Defined.
